(** * Citizen AI (src/app.py): the sentiment scorer and the conversation log

    A shallow embedding of class [CitizenAI]: [__init__], [generate_response],
    [analyze_sentiment] and [get_conversation_history], with the parts of the
    Python runtime they call ([str.strip], [str.split], [str.lower], [in] on
    strings, list slicing, [enumerate], [sum], true division), and of the
    module-level functions around the global instance: [initialize_ai],
    [chat_with_ai], [analyze_sentiment_gradio], [get_history],
    [get_service_info], [get_dashboard_stats] and [main].

    Conventions.
    - A Python [str] is a list of Unicode code points ([N]).
    - A Python [int] is a [Z]; the quotient of two ints is an exact rational
      ([Q]): CPython rounds it to the nearest double, which is monotone and
      keeps 0 and 1 fixed, and a quotient of a count by a length (below
      2^63) is too large to round to 0.
    - The exceptions modelled are the instances of [Exception], the ones an
      [except Exception] clause catches.
    - A computation that may raise returns [py A]; a method of the instance
      threads the instance through the monad [M]. *)

From Stdlib Require Import String Ascii.
From Stdlib Require Import List ZArith NArith QArith Qabs Bool Lia.
Import ListNotations.
Close Scope Q_scope.

(** ** Strings, exceptions *)

Definition codepoint := N.
Definition str := list codepoint.

(** An ASCII literal of the source, as code points. *)
Definition cps (s : string) : str := map N_of_ascii (list_ascii_of_string s).

Definition str_eqb (a b : str) : bool :=
  if list_eq_dec N.eq_dec a b then true else false.

(** Instances of [Exception]; [str(e)] is the message. *)
Inductive Exception : Type :=
| ValueError (msg : str)
| IndexError (msg : str)
| ZeroDivisionError (msg : str)
| OtherError (class_name : str) (msg : str).

Definition exc_str (e : Exception) : str :=
  match e with
  | ValueError m | IndexError m | ZeroDivisionError m | OtherError _ m => m
  end.

Inductive py (A : Type) : Type :=
| Return (a : A)
| Raise (e : Exception).
Arguments Return {A} a.
Arguments Raise {A} e.

Definition py_bind {A B} (m : py A) (k : A -> py B) : py B :=
  match m with
  | Return a => k a
  | Raise e => Raise e
  end.

Declare Scope py_scope.
Delimit Scope py_scope with py.
Notation "x <- m ;; k" := (py_bind m (fun x => k))
  (at level 61, m at next level, right associativity) : py_scope.

(** ** Built-ins *)

(** [len]. *)
Definition len {A} (l : list A) : Z := Z.of_nat (List.length l).

(** Truth value of a sequence: empty is false. *)
Definition truthy {A} (l : list A) : bool :=
  match l with
  | [] => false
  | _ :: _ => true
  end.

(** [sum(iterable)]: left to right from 0. *)
Definition py_sum (l : list Z) : Z := fold_left Z.add l 0%Z.

(** [a / b] on ints. *)
Definition truediv (a b : Z) : py Q :=
  if (b =? 0)%Z then Raise (ZeroDivisionError (cps "division by zero"))
  else Return (inject_Z a / inject_Z b)%Q.

(** [l[i]] for a list, with negative indices counted from the end. *)
Definition getitem {A} (l : list A) (i : Z) : py A :=
  let j := if (i <? 0)%Z then (i + len l)%Z else i in
  if (j <? 0)%Z then Raise (IndexError (cps "list index out of range"))
  else match nth_error l (Z.to_nat j) with
       | Some a => Return a
       | None => Raise (IndexError (cps "list index out of range"))
       end.

(** [l[start:]]: a negative start counts from the end, and both ends clamp. *)
Definition slice_from {A} (l : list A) (start : Z) : list A :=
  let s := if (start <? 0)%Z then Z.max 0 (start + len l) else Z.min start (len l) in
  skipn (Z.to_nat s) l.

(** [enumerate(l, start)]. *)
Fixpoint enumerate {A} (l : list A) (start : Z) : list (Z * A) :=
  match l with
  | [] => []
  | a :: l' => (start, a) :: enumerate l' (start + 1)
  end.

(** [str(n)] for an int. *)
Definition digit_cp (d : N) : codepoint := (48 + d)%N.

Fixpoint uint_cps (u : Decimal.uint) : str :=
  match u with
  | Decimal.Nil => []
  | Decimal.D0 u' => digit_cp 0 :: uint_cps u'
  | Decimal.D1 u' => digit_cp 1 :: uint_cps u'
  | Decimal.D2 u' => digit_cp 2 :: uint_cps u'
  | Decimal.D3 u' => digit_cp 3 :: uint_cps u'
  | Decimal.D4 u' => digit_cp 4 :: uint_cps u'
  | Decimal.D5 u' => digit_cp 5 :: uint_cps u'
  | Decimal.D6 u' => digit_cp 6 :: uint_cps u'
  | Decimal.D7 u' => digit_cp 7 :: uint_cps u'
  | Decimal.D8 u' => digit_cp 8 :: uint_cps u'
  | Decimal.D9 u' => digit_cp 9 :: uint_cps u'
  end.

Definition int_str (n : Z) : str :=
  match Z.to_int n with
  | Decimal.Pos u => uint_cps u
  | Decimal.Neg u => 45%N :: uint_cps u
  end.

(** ** [str] methods *)

(** [Py_UNICODE_ISSPACE]: the ASCII table below 128, then the code points of
    bidirectional class WS, B or S and of category Zs. *)
Definition isspace (c : codepoint) : bool :=
  ((9 <=? c) && (c <=? 13) || (28 <=? c) && (c <=? 32)
   || (c =? 0x85) || (c =? 0xA0) || (c =? 0x1680)
   || (0x2000 <=? c) && (c <=? 0x200A)
   || (c =? 0x2028) || (c =? 0x2029) || (c =? 0x202F)
   || (c =? 0x205F) || (c =? 0x3000))%N.

Fixpoint lstrip (s : str) : str :=
  match s with
  | [] => []
  | c :: s' => if isspace c then lstrip s' else s
  end.

Definition rstrip (s : str) : str := rev (lstrip (rev s)).

(** [s.strip()]. *)
Definition strip (s : str) : str := rstrip (lstrip s).

(** [s.split()]: [cur] is the token being read, last character first. *)
Fixpoint split_from (cur : str) (s : str) : list str :=
  match s with
  | [] => if truthy cur then [rev cur] else []
  | c :: s' =>
      if isspace c
      then (if truthy cur then rev cur :: split_from [] s' else split_from [] s')
      else split_from (c :: cur) s'
  end.

Definition split (s : str) : list str := split_from [] s.

(** [sub in s]. *)
Fixpoint startswith (s prefix : str) {struct prefix} : bool :=
  match prefix, s with
  | [], _ => true
  | _ :: _, [] => false
  | p :: prefix', c :: s' => (p =? c)%N && startswith s' prefix'
  end.

Fixpoint contains (s sub : str) : bool :=
  match s with
  | [] => negb (truthy sub)
  | _ :: s' => startswith s sub || contains s' sub
  end.

Definition ascii_lower (c : codepoint) : codepoint :=
  if ((65 <=? c) && (c <=? 90))%N then (c + 32)%N else c.

(** ** A runtime to evaluate with

    Two stand-ins for the runtime parts the development leaves open, used
    where a property is evaluated on a concrete text. *)

(** A case table in which no code point above ASCII has a lowercase form. *)
Definition caseless_lower : str -> nat -> codepoint -> str :=
  fun _ _ c => [c].

Definition round_half_even (q : Q) : Z :=
  let n := Qnum q in
  let d := Zpos (Qden q) in
  let f := (n / d)%Z in
  match (2 * (n mod d) ?= d)%Z with
  | Lt => f
  | Gt => (f + 1)%Z
  | Eq => if Z.even f then f else (f + 1)%Z
  end.

(** Two decimals of the exact quotient, ties to even. *)
Definition format_2f_decimal (q : Q) : str :=
  let h := round_half_even (Qabs q * 100)%Q in
  (if (Qnum q <? 0)%Z then [45%N] else [])
  ++ int_str (h / 100) ++ cps "."
  ++ (if (h mod 100 <? 10)%Z then [digit_cp 0] else []) ++ int_str (h mod 100).

Section CitizenAI.

(** The lowercase mapping of a code point above ASCII, given the whole string
    and the position (the mapping of capital sigma depends on both): the
    Unicode tables are not part of the repository. *)
Variable unicode_lower : str -> nat -> codepoint -> str.

(** [format(x, '.2f')] of a float. *)
Variable format_2f : Q -> str.

Fixpoint lower_from (whole : str) (i : nat) (s : str) : str :=
  match s with
  | [] => []
  | c :: s' =>
      (if (c <? 128)%N then [ascii_lower c] else unicode_lower whole i c)
        ++ lower_from whole (S i) s'
  end.

(** [s.lower()]. *)
Definition lower (s : str) : str := lower_from s 0 s.

(** ** The instance and its methods *)

(** An entry of [conversation_history]: a dict built in one place
    (line 57) with exactly these three keys. *)
Record Conversation : Type := {
  timestamp : str;
  user_input : str;
  ai_response : str
}.

(** The instance: [client] is immutable and is represented by the endpoint
    of [World]. *)
Record Instance : Type := {
  api_key : str;
  conversation_history : list Conversation
}.

(** What the inference client receives and returns. *)
Record ChatRequest : Type := {
  model : str;
  messages : list (str * str);
  max_tokens : Z;
  temperature : Q
}.

Record ChatMessage : Type := { content : str }.
Record ChatChoice : Type := { message : ChatMessage }.
Record ChatCompletion : Type := { choices : list ChatChoice }.

(** The outside world of one call: the inference endpoint, and the clock
    read as [datetime.now().strftime('%Y-%m-%d %H:%M:%S')]. *)
Record World : Type := {
  create : ChatRequest -> py ChatCompletion;
  now : str
}.

(** Methods run on the instance; an exception leaves the instance as it was
    when it was raised. *)
Definition M (A : Type) : Type := Instance -> py A * Instance.

Definition ret {A} (a : A) : M A := fun self => (Return a, self).

Definition bind {A B} (m : M A) (k : A -> M B) : M B :=
  fun self =>
    match m self with
    | (Return a, self') => k a self'
    | (Raise e, self') => (Raise e, self')
    end.

Definition lift {A} (m : py A) : M A := fun self => (m, self).

(** [try: body  except Exception as e: handler]. *)
Definition try_except {A} (body : M A) (handler : Exception -> M A) : M A :=
  fun self =>
    match body self with
    | (Return a, self') => (Return a, self')
    | (Raise e, self') => handler e self'
    end.

Definition get_conversation_history_attr : M (list Conversation) :=
  fun self => (Return (conversation_history self), self).

(** [self.conversation_history.append(conv)]. *)
Definition append_conversation (conv : Conversation) : M unit :=
  fun self =>
    (Return tt,
     {| api_key := api_key self;
        conversation_history := conversation_history self ++ [conv] |}).

Declare Scope M_scope.
Delimit Scope M_scope with M.
Notation "x <- m ;; k" := (bind m (fun x => k))
  (at level 61, m at next level, right associativity) : M_scope.
Notation "m ;; k" := (bind m (fun _ => k))
  (at level 61, right associativity) : M_scope.

(** [__init__] (lines 18-31); [token] is [os.getenv("HF_API_TOKEN")]. *)
Definition init (token : option str) : py Instance :=
  match token with
  | Some (c :: key) =>
      Return {| api_key := c :: key; conversation_history := [] |}
  | _ => Raise (ValueError (cps "HF_API_TOKEN not found in environment variables"))
  end.

Definition system_prompt : str :=
  cps "You are Citizen AI, an intelligent assistant for government services. You are a helpful, accurate, and professional assistant. Provide detailed, comprehensive responses with all relevant information about government services such as passport applications, property tax, birth certificates, driving licenses, voter ID, and general inquiries. Always identify yourself as Citizen AI in your responses.".

Definition chat_request (user_input : str) : ChatRequest :=
  {| model := cps "openai/gpt-oss-120b";
     messages := [(cps "system", system_prompt); (cps "user", user_input)];
     max_tokens := 1500;
     temperature := (7 # 10)%Q |}.

(** Lines 47-54: the call to the endpoint and the text of its first choice. *)
Definition inference (w : World) (user_input : str) : py str :=
  (completion <- create w (chat_request user_input) ;;
   choice <- getitem (choices completion) 0 ;;
   Return (content (message choice)))%py.

(** [generate_response] (lines 33-66). *)
Definition generate_response (w : World) (user_input : str) : M str :=
  try_except
    (response_text <- lift (inference w user_input) ;;
     append_conversation
       {| timestamp := now w;
          user_input := user_input;
          ai_response := response_text |} ;;
     ret response_text)%M
    (fun e => ret (cps "Error: " ++ exc_str e)).

Definition positive_words : list str :=
  map cps
    ["good"; "great"; "excellent"; "amazing"; "wonderful"; "fantastic";
     "satisfied"; "happy"; "pleased"; "improved"; "better"; "thanks";
     "thank you"; "helpful"; "efficient"; "quick"; "fast"; "love";
     "appreciate"; "perfect"; "outstanding"; "brilliant"]%string.

Definition negative_words : list str :=
  map cps
    ["bad"; "terrible"; "awful"; "horrible"; "disappointed"; "angry";
     "frustrated"; "poor"; "worse"; "broken"; "issue"; "problem";
     "slow"; "delay"; "complaint"; "not working"; "hate"; "worst";
     "useless"; "waste"; "disgusting"; "annoying"]%string.

(** [sum(1 for word in words if word in text_lower)]. *)
Definition count_present (words : list str) (text_lower : str) : Z :=
  py_sum (map (fun _ => 1%Z) (filter (fun word => contains text_lower word) words)).

(** The values [analyze_sentiment] computes before it formats them;
    [total_words] is [len(text.split())]. *)
Record Analysis : Type := {
  positive_count : Z;
  negative_count : Z;
  sentiment : str;
  emoji : str;
  confidence : Q;
  total_words : Z
}.

(** Lines 91-99: the label and its emoji. *)
Definition label_of (positive_count negative_count : Z) : str * str :=
  if (positive_count >? negative_count)%Z then (cps "Positive", [0x1F60A%N])
  else if (negative_count >? positive_count)%Z then (cps "Negative", [0x1F61E%N])
  else (cps "Neutral", [0x1F610%N]).

(** Lines 73-101. *)
Definition analyze (text : str) : py Analysis :=
  let text_lower := lower text in
  let positive_count := count_present positive_words text_lower in
  let negative_count := count_present negative_words text_lower in
  let '(sentiment, emoji) := label_of positive_count negative_count in
  (confidence <- truediv (Z.max positive_count negative_count) (len (split text) + 1) ;;
   Return {| positive_count := positive_count;
             negative_count := negative_count;
             sentiment := sentiment;
             emoji := emoji;
             confidence := confidence;
             total_words := len (split text) |})%py.

Definition nl : str := [10%N].

(** Lines 103-115: the f-string. *)
Definition result_text (a : Analysis) : str :=
  nl ++ cps "**Sentiment Analysis Result:**" ++ nl
  ++ nl
  ++ [0x1F3AD%N] ++ cps " **Sentiment:** " ++ emoji a ++ cps " " ++ sentiment a ++ nl
  ++ [0x1F4CA%N] ++ cps " **Confidence:** " ++ format_2f (confidence a) ++ nl
  ++ [0x1F44D%N] ++ cps " **Positive words:** " ++ int_str (positive_count a) ++ nl
  ++ [0x1F44E%N] ++ cps " **Negative words:** " ++ int_str (negative_count a) ++ nl
  ++ nl
  ++ cps "**Analysis Details:**" ++ nl
  ++ cps "- Total words analyzed: " ++ int_str (total_words a) ++ nl
  ++ cps "- Positive indicators: " ++ int_str (positive_count a) ++ nl
  ++ cps "- Negative indicators: " ++ int_str (negative_count a) ++ nl.

Definition empty_input_notice : str := cps "Please enter some text to analyze.".

(** [analyze_sentiment] (lines 68-117). *)
Definition analyze_sentiment (text : str) : M str :=
  if negb (truthy (strip text)) then ret empty_input_notice
  else lift (a <- analyze text ;; Return (result_text a))%py.

Definition no_history_message : str :=
  [0x1F4DD%N] ++ cps " No conversation history yet.".

Definition history_header : str :=
  cps "**" ++ [0x1F4DD%N] ++ cps " Conversation History:**" ++ nl ++ nl.

(** The three lines one turn of the loop adds (lines 126-128). *)
Definition history_block (i : Z) (conv : Conversation) : str :=
  (cps "**" ++ int_str i ++ cps ".** [" ++ timestamp conv ++ cps "]" ++ nl)
  ++ ([0x1F464%N] ++ cps " **You:** " ++ user_input conv ++ nl)
  ++ ([0x1F916%N] ++ cps " **Citizen AI:** " ++ ai_response conv ++ nl ++ nl).

(** [get_conversation_history] (lines 119-130). *)
Definition get_conversation_history : M str :=
  (log <- get_conversation_history_attr ;;
   if negb (truthy log) then ret no_history_message
   else
     ret (fold_left
            (fun history '(i, conv) => history ++ history_block i conv)
            (enumerate (slice_from log (-10)) 1)
            history_header))%M.

(** A call on the instance from outside. *)
Inductive Call : Type :=
| CallGenerateResponse (w : World) (user_input : str)
| CallAnalyzeSentiment (text : str)
| CallGetConversationHistory.

Definition perform (c : Call) : M str :=
  match c with
  | CallGenerateResponse w user_input => generate_response w user_input
  | CallAnalyzeSentiment text => analyze_sentiment text
  | CallGetConversationHistory => get_conversation_history
  end.

(** The instance after a sequence of calls. *)
Definition perform_all (cs : list Call) (self : Instance) : Instance :=
  fold_left (fun self c => snd (perform c self)) cs self.

(** ** The module-level functions (lines 132-392)

    The functions the interface wires to its buttons. They share the global
    [ai], [None] until [initialize_ai] succeeds. *)

(** What [CitizenAI()] reads from the process: the token [os.getenv] gives,
    and the outcome of building the [InferenceClient] for a key. *)
Record Env : Type := {
  hf_api_token : option str;
  new_client : str -> py unit
}.

(** [CitizenAI()]: [__init__] together with the client it builds
    (lines 18-31). *)
Definition CitizenAI_new (env : Env) : py Instance :=
  (self <- init (hf_api_token env) ;;
   _ <- new_client env (api_key self) ;;
   Return self)%py.

(** The global [ai] (line 133). *)
Definition GlobalAi : Type := option Instance.

Definition initialize_prompt : str :=
  cps "Please initialize the AI first by clicking the 'Initialize AI' button.".

Definition initialized_message : str :=
  [0x2705%N] ++ cps " Citizen AI initialized successfully!".

(** [initialize_ai] (lines 135-142): the assignment to [ai] happens only
    when the constructor returns. *)
Definition initialize_ai (env : Env) (ai : GlobalAi) : py str * GlobalAi :=
  match CitizenAI_new env with
  | Return self => (Return initialized_message, Some self)
  | Raise e =>
      (Return ([0x274C%N] ++ cps " Failed to initialize AI: " ++ exc_str e), ai)
  end.

(** The chat display: the [message, reply] pairs shown so far. *)
Definition ChatHistory : Type := list (str * str).

(** [chat_with_ai] (lines 144-157). *)
Definition chat_with_ai (w : World) (message : str) (history : ChatHistory)
           (ai : GlobalAi) : py ChatHistory * GlobalAi :=
  match ai with
  | None => (Return (history ++ [(message, initialize_prompt)]), None)
  | Some self =>
      if negb (truthy (strip message))
      then (Return (history ++ [(message, cps "Please enter a message.")]), Some self)
      else
        match generate_response w message self with
        | (Return response, self') =>
            (Return (history ++ [(message, response)]), Some self')
        | (Raise e, self') =>
            (Return (history ++ [(message, cps "Error: " ++ exc_str e)]), Some self')
        end
  end.

(** [analyze_sentiment_gradio] (lines 159-165). *)
Definition analyze_sentiment_gradio (text : str) (ai : GlobalAi)
  : py str * GlobalAi :=
  match ai with
  | None => (Return initialize_prompt, None)
  | Some self =>
      let '(out, self') := analyze_sentiment text self in (out, Some self')
  end.

(** [get_history] (lines 167-173). *)
Definition get_history (ai : GlobalAi) : py str * GlobalAi :=
  match ai with
  | None => (Return initialize_prompt, None)
  | Some self =>
      let '(out, self') := get_conversation_history self in (out, Some self')
  end.

(** [d.get(key, default)] on a dict literal, given as its items in order. *)
Definition dict_get (d : list (str * str)) (key default : str) : str :=
  match find (fun item => str_eqb (fst item) key) d with
  | Some item => snd item
  | None => default
  end.

(** The texts of [get_service_info] (lines 178-337). *)
Definition info_passport_services : str :=
  nl
  ++ cps "**" ++ [0x1F6C2%N] ++ cps " Passport Services**" ++ nl
  ++ nl
  ++ cps "**How to Apply:**" ++ nl
  ++ cps "1. Visit passportindia.gov.in" ++ nl
  ++ cps "2. Create an account and fill the application form" ++ nl
  ++ cps "3. Upload required documents" ++ nl
  ++ cps "4. Pay the fee online" ++ nl
  ++ cps "5. Schedule appointment at Passport Seva Kendra" ++ nl
  ++ nl
  ++ cps "**Required Documents:**" ++ nl
  ++ cps "- Proof of Identity (Aadhaar, PAN, Voter ID)" ++ nl
  ++ cps "- Proof of Address (Utility bill, Bank statement)" ++ nl
  ++ cps "- Date of Birth proof" ++ nl
  ++ cps "- Recent passport-sized photographs" ++ nl
  ++ nl
  ++ cps "**Fees:**" ++ nl
  ++ cps "- Normal: " ++ [0x20B9%N] ++ cps "1500 (36 pages), " ++ [0x20B9%N] ++ cps "2000 (60 pages)" ++ nl
  ++ cps "- Tatkal: " ++ [0x20B9%N] ++ cps "2000 (36 pages), " ++ [0x20B9%N] ++ cps "2500 (60 pages)" ++ nl
  ++ nl
  ++ cps "**Processing Time:**" ++ nl
  ++ cps "- Normal: 2-3 weeks" ++ nl
  ++ cps "- Tatkal: 1-3 days" ++ nl
  ++ nl
  ++ cps "**Contact:** 1800-258-1800" ++ nl.

Definition info_property_tax : str :=
  nl
  ++ cps "**" ++ [0x1F3E0%N] ++ cps " Property Tax Payment**" ++ nl
  ++ nl
  ++ cps "**Online Payment Methods:**" ++ nl
  ++ cps "1. Municipal Corporation Website" ++ nl
  ++ cps "2. State Government e-Services Portal" ++ nl
  ++ cps "3. Mobile Apps (PayTM, PhonePe, Google Pay)" ++ nl
  ++ cps "4. Banking Apps" ++ nl
  ++ nl
  ++ cps "**Required Information:**" ++ nl
  ++ cps "- Property ID/Assessment Number" ++ nl
  ++ cps "- Owner's Name" ++ nl
  ++ cps "- Property Address" ++ nl
  ++ nl
  ++ cps "**Payment Options:**" ++ nl
  ++ cps "- Credit/Debit Card" ++ nl
  ++ cps "- Net Banking" ++ nl
  ++ cps "- UPI" ++ nl
  ++ cps "- Wallet" ++ nl
  ++ nl
  ++ cps "**Due Dates:** Check local municipal rules" ++ nl
  ++ cps "**Penalty:** 1-2% per month for late payment" ++ nl
  ++ nl
  ++ cps "**Contact:** Local Municipal Office" ++ nl.

Definition info_driving_license : str :=
  nl
  ++ cps "**" ++ [0x1F697%N] ++ cps " Driving License Services**" ++ nl
  ++ nl
  ++ cps "**Types of Licenses:**" ++ nl
  ++ cps "- Learner's License (Required before permanent)" ++ nl
  ++ cps "- Permanent License (Valid for 20 years)" ++ nl
  ++ cps "- International Driving Permit" ++ nl
  ++ nl
  ++ cps "**Application Process:**" ++ nl
  ++ cps "1. Apply online at parivahan.gov.in" ++ nl
  ++ cps "2. Book slot for driving test" ++ nl
  ++ cps "3. Pass written and practical tests" ++ nl
  ++ cps "4. Medical examination" ++ nl
  ++ cps "5. Collect license" ++ nl
  ++ nl
  ++ cps "**Documents Required:**" ++ nl
  ++ cps "- Aadhaar Card" ++ nl
  ++ cps "- Proof of Address" ++ nl
  ++ cps "- Age Proof" ++ nl
  ++ cps "- Medical Certificate" ++ nl
  ++ cps "- Learner's License (for permanent)" ++ nl
  ++ nl
  ++ cps "**Fees:**" ++ nl
  ++ cps "- Learner's License: " ++ [0x20B9%N] ++ cps "200" ++ nl
  ++ cps "- Permanent License: " ++ [0x20B9%N] ++ cps "500" ++ nl
  ++ cps "- International Permit: " ++ [0x20B9%N] ++ cps "500" ++ nl
  ++ nl
  ++ cps "**Contact:** 1800-11-0909" ++ nl.

Definition info_birth_certificate : str :=
  nl
  ++ cps "**" ++ [0x1F4C4%N] ++ cps " Birth Certificate Services**" ++ nl
  ++ nl
  ++ cps "**Registration Process:**" ++ nl
  ++ cps "- Hospital births: Registered within 21 days by hospital" ++ nl
  ++ cps "- Home births: Register at local municipal office within 21 days" ++ nl
  ++ cps "- Late registration: Up to 30 days (with penalty)" ++ nl
  ++ nl
  ++ cps "**Required Documents:**" ++ nl
  ++ cps "- Hospital discharge certificate" ++ nl
  ++ cps "- Parents' ID proof (Aadhaar, Voter ID)" ++ nl
  ++ cps "- Address proof" ++ nl
  ++ cps "- Affidavit (if required)" ++ nl
  ++ nl
  ++ cps "**Fees:**" ++ nl
  ++ cps "- Normal registration: Free" ++ nl
  ++ cps "- Late registration: " ++ [0x20B9%N] ++ cps "200-500" ++ nl
  ++ cps "- Duplicate certificate: " ++ [0x20B9%N] ++ cps "100-200" ++ nl
  ++ nl
  ++ cps "**Processing Time:** 7-15 days" ++ nl
  ++ nl
  ++ cps "**Contact:** Local Municipal Office" ++ nl.

Definition info_voter_id : str :=
  nl
  ++ cps "**" ++ [0x1F5F3%N] ++ [0xFE0F%N] ++ cps " Voter ID Services**" ++ nl
  ++ nl
  ++ cps "**How to Apply:**" ++ nl
  ++ cps "1. Visit nvsp.in (National Voter's Service Portal)" ++ nl
  ++ cps "2. Create account with mobile number" ++ nl
  ++ cps "3. Fill online application form" ++ nl
  ++ cps "4. Upload documents" ++ nl
  ++ cps "5. Submit and track application" ++ nl
  ++ nl
  ++ cps "**Documents Required:**" ++ nl
  ++ cps "- Proof of Identity (Aadhaar, PAN, Passport)" ++ nl
  ++ cps "- Proof of Address" ++ nl
  ++ cps "- Date of Birth proof" ++ nl
  ++ cps "- Recent photograph" ++ nl
  ++ nl
  ++ cps "**Application Types:**" ++ nl
  ++ cps "- New Voter Registration" ++ nl
  ++ cps "- Correction in existing details" ++ nl
  ++ cps "- Deletion from rolls" ++ nl
  ++ cps "- Transference to another constituency" ++ nl
  ++ nl
  ++ cps "**Processing Time:** 15-30 days" ++ nl
  ++ nl
  ++ cps "**Contact:** 1950 (Election Commission Helpline)" ++ nl.

Definition info_general_inquiry : str :=
  nl
  ++ cps "**" ++ [0x1F4CB%N] ++ cps " General Government Services**" ++ nl
  ++ nl
  ++ cps "**Common Services Available:**" ++ nl
  ++ cps "- PAN Card Application" ++ nl
  ++ cps "- Aadhaar Card Services" ++ nl
  ++ cps "- Ration Card" ++ nl
  ++ cps "- Electricity Bill Payment" ++ nl
  ++ cps "- Water Supply Services" ++ nl
  ++ cps "- Municipal Complaints" ++ nl
  ++ cps "- Public Grievance Redressal" ++ nl
  ++ nl
  ++ cps "**Online Portals:**" ++ nl
  ++ cps "- India.gov.in (Central Government)" ++ nl
  ++ cps "- State Government Portals" ++ nl
  ++ cps "- Department-specific websites" ++ nl
  ++ cps "- Mobile Apps" ++ nl
  ++ nl
  ++ cps "**Emergency Contacts:**" ++ nl
  ++ cps "- Police: 100" ++ nl
  ++ cps "- Fire: 101" ++ nl
  ++ cps "- Ambulance: 102" ++ nl
  ++ cps "- Women Helpline: 1091" ++ nl
  ++ nl
  ++ cps "**For specific services, please ask a detailed question!**" ++ nl.

(** The dict literal of [get_service_info] (lines 177-338), in its order. *)
Definition services_info : list (str * str) :=
  [(cps "Passport Services", info_passport_services);
   (cps "Property Tax", info_property_tax);
   (cps "Driving License", info_driving_license);
   (cps "Birth Certificate", info_birth_certificate);
   (cps "Voter ID", info_voter_id);
   (cps "General Inquiry", info_general_inquiry)].

(** Line 346. *)
Definition stats_uninitialized : str :=
  cps "**" ++ [0x26A0%N] ++ [0xFE0F%N] ++ cps " AI Not Initialized**" ++ nl
  ++ nl
  ++ cps "Please initialize the AI first to view statistics.".

(** Line 347. *)
Definition analytics_uninitialized : str :=
  cps "**Analytics Unavailable**" ++ nl
  ++ nl
  ++ cps "Initialize the AI to see conversation analytics.".

(** Lines 353-365. *)
Definition stats_text (total_conversations : Z) (current_time : str) : str :=
  nl
  ++ cps "**" ++ [0x1F4CA%N] ++ cps " Quick Statistics**" ++ nl
  ++ nl
  ++ [0x1F5E3%N] ++ [0xFE0F%N] ++ cps " **Total Conversations:** "
  ++ int_str total_conversations
  ++ nl
  ++ [0x23F0%N] ++ cps " **Last Updated:** "
  ++ current_time
  ++ nl
  ++ [0x1F916%N] ++ cps " **Citizen AI Status:** Active" ++ nl
  ++ [0x1F310%N] ++ cps " **Platform:** Gradio Web Interface" ++ nl
  ++ nl
  ++ cps "**Recent Activity:**" ++ nl
  ++ cps "- Conversations in session: "
  ++ int_str total_conversations
  ++ nl
  ++ cps "- Citizen AI Model: Hugging Face GPT" ++ nl
  ++ cps "- Response Quality: High" ++ nl.

(** Lines 367-390. *)
Definition analytics_text (total_conversations : Z) : str :=
  nl
  ++ cps "**" ++ [0x1F4C8%N] ++ cps " Analytics Overview**" ++ nl
  ++ nl
  ++ cps "**Conversation Trends:**" ++ nl
  ++ cps "- Total interactions: "
  ++ int_str total_conversations
  ++ nl
  ++ cps "- Average response time: < 2 seconds" ++ nl
  ++ cps "- Success rate: 98%" ++ nl
  ++ nl
  ++ cps "**Popular Topics:**" ++ nl
  ++ cps "1. Government Services (45%)" ++ nl
  ++ cps "2. Document Applications (30%)" ++ nl
  ++ cps "3. Payment Queries (15%)" ++ nl
  ++ cps "4. General Information (10%)" ++ nl
  ++ nl
  ++ cps "**User Satisfaction:**" ++ nl
  ++ cps "- Based on "
  ++ int_str total_conversations
  ++ cps " interactions" ++ nl
  ++ cps "- Positive feedback: High" ++ nl
  ++ cps "- Response accuracy: Excellent" ++ nl
  ++ nl
  ++ cps "**System Performance:**" ++ nl
  ++ cps "- Uptime: 99.9%" ++ nl
  ++ cps "- API Response Time: Fast" ++ nl
  ++ cps "- Error Rate: < 1%" ++ nl.

Definition service_not_available : str :=
  cps "Service information not available.".

(** [get_service_info] (lines 175-340). *)
Definition get_service_info (service_type : str) : str :=
  dict_get services_info service_type service_not_available.

(** The choices of the service dropdown (lines 478-485). *)
Definition service_choices : list str :=
  map cps
    ["Passport Services"; "Property Tax"; "Driving License";
     "Birth Certificate"; "Voter ID"; "General Inquiry"]%string.

(** [get_dashboard_stats] (lines 342-392); [current_time] is the clock read
    at line 351. *)
Definition get_dashboard_stats (current_time : str) (ai : GlobalAi)
  : py (str * str) * GlobalAi :=
  match ai with
  | None => (Return (stats_uninitialized, analytics_uninitialized), None)
  | Some self =>
      let total_conversations := len (conversation_history self) in
      (Return (stats_text total_conversations current_time,
               analytics_text total_conversations),
       Some self)
  end.

(** What the interface can make happen to [ai] (lines 409, 430-431, 449,
    468, 507), each with the inputs its handler gets. *)
Inductive Event : Type :=
| ClickInitialize (env : Env)
| SendMessage (w : World) (message : str) (history : ChatHistory)
| ClickAnalyze (text : str)
| ClickLoadHistory
| ClickRefresh (current_time : str).

(** The global after the handler of an event has run. *)
Definition handle (ev : Event) (ai : GlobalAi) : GlobalAi :=
  match ev with
  | ClickInitialize env => snd (initialize_ai env ai)
  | SendMessage w message history => snd (chat_with_ai w message history ai)
  | ClickAnalyze text => snd (analyze_sentiment_gradio text ai)
  | ClickLoadHistory => snd (get_history ai)
  | ClickRefresh current_time => snd (get_dashboard_stats current_time ai)
  end.

Definition handle_all (evs : list Event) (ai : GlobalAi) : GlobalAi :=
  fold_left (fun ai ev => handle ev ai) evs ai.

(** The records a sequence of calls on the instance appends: one for each
    [generate_response] whose inference step yields a text. *)
Definition records_of (cs : list Call) : list Conversation :=
  flat_map
    (fun c =>
       match c with
       | CallGenerateResponse w user_input =>
           match inference w user_input with
           | Return response_text =>
               [ {| timestamp := now w;
                    user_input := user_input;
                    ai_response := response_text |} ]
           | Raise _ => []
           end
       | _ => []
       end)
    cs.

(** Every code point is ASCII. *)
Definition is_ascii (s : str) : bool := forallb (fun c => (c <? 128)%N) s.

(** An environment with a token, whose client builds. *)
Definition sample_env : Env :=
  {| hf_api_token := Some (cps "hf_token");
     new_client := fun _ => Return tt |}.

(** An environment without the token. *)
Definition env_without_token : Env :=
  {| hf_api_token := None; new_client := fun _ => Return tt |}.

(** How [main] ends: [sys.exit(code)], or the call of [interface.launch]
    with its arguments. *)
Inductive MainOutcome : Type :=
| Exit (code : Z)
| Launch (server_name : str) (server_port : Z) (show_api share : bool).

(** [os.getenv(name)] as a condition: unset and empty are false. *)
Definition env_truthy (value : option str) : bool :=
  match value with
  | Some s => truthy s
  | None => false
  end.

(** [main] (lines 533-562): the texts it prints, in order, and how it ends;
    [interface] is the outcome of [create_gradio_interface()]. *)
Definition main (env : Env) (interface : py unit) : list str * py MainOutcome :=
  let banner :=
    [ [0x1F680%N] ++ cps " Starting Citizen AI with Complete Gradio Interface";
      [0x2728%N] ++ cps " Full response mode enabled (1500 tokens)";
      cps "Powered by Hugging Face API";
      repeat 61%N 50 ] in
  if negb (env_truthy (hf_api_token env))
  then
    (banner
     ++ [ [0x274C%N] ++ cps " Error: HF_API_TOKEN environment variable not set!";
          cps "Please create a .env file with your Hugging Face API token:";
          cps "HF_API_TOKEN=your_token_here";
          nl ++ cps "Get your token from: https://huggingface.co/settings/tokens" ],
     Return (Exit 1))
  else
    match interface with
    | Raise e => (banner, Raise e)
    | Return _ =>
        (banner
         ++ [ [0x1F310%N] ++ cps " Launching web interface...";
              cps "The interface will open in your default web browser.";
              cps "Press Ctrl+C in the terminal to stop the server.";
              repeat 61%N 50 ],
         Return (Launch (cps "0.0.0.0") 7860 false true))
    end.

(** ** The operations in the words of the specification *)

(** The number of whitespace-delimited tokens: the positions that hold a
    character that is not whitespace and that follow whitespace or start the
    text. *)
Fixpoint token_starts (after_space : bool) (s : str) : nat :=
  match s with
  | [] => 0
  | c :: s' =>
      if isspace c then token_starts true s'
      else (if after_space then 1 else 0) + token_starts false s'
  end.

Definition count_tokens (s : str) : nat := token_starts true s.

(** [sub] occurs in [s]. *)
Definition occurs_in (sub s : str) : Prop :=
  exists before after, s = before ++ sub ++ after.

(** The last [k] records, oldest first. *)
Definition last_records (k : nat) (log : list Conversation) : list Conversation :=
  skipn (List.length log - k) log.

(** The records as blocks numbered [i], [i+1], ... *)
Fixpoint numbered_blocks (i : nat) (recs : list Conversation) : str :=
  match recs with
  | [] => []
  | r :: recs' => history_block (Z.of_nat i) r ++ numbered_blocks (S i) recs'
  end.

(** [render_recent(limit)] of section 4.2. *)
Definition render_recent (limit : nat) (log : list Conversation) : str :=
  match log with
  | [] => no_history_message
  | _ :: _ => history_header ++ numbered_blocks 1 (last_records limit log)
  end.

(** ** Sample data *)

Definition sample_conversation (n : Z) : Conversation :=
  {| timestamp := cps "2024-05-01 09:00:" ++ int_str (n + 10);
     user_input := cps "question " ++ int_str n;
     ai_response := cps "answer " ++ int_str n |}.

(** A log of [n] records, the oldest first. *)
Definition sample_log (n : nat) : list Conversation :=
  map (fun i => sample_conversation (Z.of_nat i)) (seq 1 n).

Definition sample_instance (n : nat) : Instance :=
  {| api_key := cps "hf_token"; conversation_history := sample_log n |}.

Definition sample_clock : str := cps "2024-05-01 09:30:00".

(** An endpoint that answers [reply]. *)
Definition world_replying (reply : str) : World :=
  {| create := fun _ =>
       Return {| choices := [ {| message := {| content := reply |} |} ] |};
     now := sample_clock |}.

(** An endpoint whose call raises. *)
Definition world_failing : World :=
  {| create := fun _ =>
       Raise (OtherError (cps "HfHubHTTPError") (cps "503 Service Unavailable"));
     now := sample_clock |}.

(** An endpoint that answers with no choice at all. *)
Definition world_no_choice : World :=
  {| create := fun _ => Return {| choices := [] |};
     now := sample_clock |}.

(** ** Built-ins: lemmas *)

Lemma fold_left_add_ones (A : Type) (l : list A) (acc : Z) :
  fold_left Z.add (map (fun _ => 1%Z) l) acc = (acc + Z.of_nat (List.length l))%Z.
Proof.
  revert acc; induction l as [|a l IH]; intros acc.
  - simpl; lia.
  - cbn [map fold_left List.length]. rewrite IH. lia.
Qed.

Lemma py_sum_ones (A : Type) (l : list A) :
  py_sum (map (fun _ => 1%Z) l) = len l.
Proof. unfold py_sum, len. now rewrite fold_left_add_ones. Qed.

Lemma startswith_iff (s prefix : str) :
  startswith s prefix = true <-> exists rest, s = prefix ++ rest.
Proof.
  revert s; induction prefix as [|p prefix IH]; intros s.
  - simpl; split; [intros _; now exists s | reflexivity].
  - destruct s as [|c s]; simpl.
    + split; [discriminate | intros [rest H]; discriminate].
    + rewrite andb_true_iff, N.eqb_eq, IH. split.
      * intros [-> [rest ->]]. now exists rest.
      * intros [rest H]. injection H as -> ->. split; [reflexivity | now exists rest].
Qed.

Lemma contains_iff (s sub : str) :
  contains s sub = true <-> occurs_in sub s.
Proof.
  unfold occurs_in. induction s as [|c s IH].
  - destruct sub as [|p sub]; simpl.
    + split; [intros _; now exists [], [] | reflexivity].
    + split; [discriminate |].
      intros (before & after & H). destruct before; discriminate.
  - cbn [contains]. rewrite orb_true_iff, startswith_iff, IH. split.
    + intros [[rest H] | (before & after & H)].
      * exists [], rest. exact H.
      * exists (c :: before), after. now rewrite H.
    + intros (before & after & H). destruct before as [|b before].
      * left. now exists after.
      * right. injection H as _ H. now exists before, after.
Qed.

Lemma lstrip_nil_iff (s : str) :
  lstrip s = [] <-> forallb isspace s = true.
Proof.
  induction s as [|c s IH]; simpl.
  - tauto.
  - destruct (isspace c); simpl; [exact IH | split; discriminate].
Qed.

Lemma lstrip_all_space (s : str) :
  forallb isspace (lstrip s) = true -> lstrip s = [].
Proof.
  induction s as [|c s IH]; simpl; [reflexivity |].
  destruct (isspace c) eqn:E; [exact IH |].
  simpl. rewrite E. discriminate.
Qed.

Lemma forallb_rev (A : Type) (f : A -> bool) (l : list A) :
  forallb f (rev l) = forallb f l.
Proof.
  induction l as [|a l IH]; simpl; [reflexivity |].
  rewrite forallb_app, IH. simpl. rewrite andb_true_r. apply andb_comm.
Qed.

Lemma strip_nil_iff (s : str) :
  strip s = [] <-> forallb isspace s = true.
Proof.
  unfold strip, rstrip. split.
  - intros H. apply (f_equal (@rev codepoint)) in H. rewrite rev_involutive in H.
    simpl in H. apply lstrip_nil_iff in H. rewrite forallb_rev in H.
    apply lstrip_nil_iff. now apply lstrip_all_space.
  - intros H. apply lstrip_nil_iff in H. rewrite H. reflexivity.
Qed.

Lemma split_from_length (cur s : str) :
  List.length (split_from cur s)
  = (if truthy cur then 1 else 0) + token_starts (negb (truthy cur)) s.
Proof.
  revert cur; induction s as [|c s IH]; intros cur.
  - simpl. destruct (truthy cur); reflexivity.
  - cbn [split_from token_starts]. destruct (isspace c).
    + destruct (truthy cur); cbn [List.length]; rewrite IH; reflexivity.
    + rewrite IH. simpl. destruct (truthy cur); simpl; lia.
Qed.

Lemma split_length (s : str) : List.length (split s) = count_tokens s.
Proof. unfold split, count_tokens. now rewrite split_from_length. Qed.

Lemma token_starts_all_space (b : bool) (s : str) :
  forallb isspace s = true -> token_starts b s = 0.
Proof.
  revert b; induction s as [|c s IH]; intros b; simpl; [reflexivity |].
  destruct (isspace c); simpl; [intros H; now apply IH | discriminate].
Qed.

Lemma token_starts_pos (s : str) :
  forallb isspace s = false -> 1 <= token_starts true s.
Proof.
  induction s as [|c s IH]; simpl; [discriminate |].
  destruct (isspace c); simpl; [exact IH | lia].
Qed.

Lemma split_from_tokens (cur s : str) :
  forallb (fun c => negb (isspace c)) cur = true ->
  Forall (fun t => t <> [] /\ forallb (fun c => negb (isspace c)) t = true)
         (split_from cur s).
Proof.
  revert cur; induction s as [|c s IH]; intros cur Hcur.
  - simpl. destruct cur as [|d cur]; simpl; constructor; [| constructor].
    split.
    + intros H. apply (f_equal (@List.length codepoint)) in H.
      rewrite length_app in H. simpl in H. lia.
    + change (rev cur ++ [d]) with (rev (d :: cur)). now rewrite forallb_rev.
  - cbn [split_from]. destruct (isspace c) eqn:E.
    + destruct cur as [|d cur]; cbn [truthy].
      * now apply IH.
      * constructor; [| now apply IH]. split.
        -- intros H. apply (f_equal (@List.length codepoint)) in H.
           simpl in H. rewrite length_app in H. simpl in H. lia.
        -- now rewrite forallb_rev.
    + apply IH. simpl. now rewrite E.
Qed.

Lemma split_from_concat (cur s : str) :
  concat (split_from cur s) = rev cur ++ filter (fun c => negb (isspace c)) s.
Proof.
  revert cur; induction s as [|c s IH]; intros cur.
  - simpl. destruct cur; simpl; now rewrite ?app_nil_r.
  - cbn [split_from filter]. destruct (isspace c); cbn [negb].
    + destruct cur as [|d cur]; cbn [truthy concat]; rewrite IH; reflexivity.
    + rewrite IH. simpl. now rewrite <- app_assoc.
Qed.

Lemma strip_nonempty_tokens (s : str) :
  strip s <> [] -> (1 <= len (split s))%Z.
Proof.
  intros H. unfold len. rewrite split_length. unfold count_tokens.
  destruct (forallb isspace s) eqn:E.
  - exfalso. apply H. now apply strip_nil_iff.
  - apply token_starts_pos in E. lia.
Qed.

Lemma truediv_pos (a b : Z) :
  (0 < b)%Z ->
  truediv a b = Return (inject_Z a / inject_Z b)%Q
  /\ (inject_Z a / inject_Z b == a # Z.to_pos b)%Q.
Proof.
  intros Hb. unfold truediv. split.
  - destruct (b =? 0)%Z eqn:E; [apply Z.eqb_eq in E; lia | reflexivity].
  - destruct b as [|q|q]; try lia. simpl Z.to_pos. symmetry. apply Qmake_Qdiv.
Qed.

(** ** [analyze_sentiment]: lemmas *)

Lemma count_present_len (words : list str) (text_lower : str) :
  count_present words text_lower
  = len (filter (fun word => contains text_lower word) words).
Proof. unfold count_present. apply py_sum_ones. Qed.

Lemma count_present_matched (words : list str) (text_lower : str) :
  NoDup words ->
  exists matched,
    NoDup matched
    /\ (forall w, In w matched <-> In w words /\ occurs_in w text_lower)
    /\ count_present words text_lower = len matched.
Proof.
  intros Hnd. exists (filter (fun word => contains text_lower word) words).
  split; [now apply NoDup_filter |]. split.
  - intros w. rewrite filter_In, contains_iff. reflexivity.
  - apply count_present_len.
Qed.

Lemma count_present_range (words : list str) (text_lower : str) :
  (0 <= count_present words text_lower <= len words)%Z.
Proof.
  rewrite count_present_len. unfold len.
  pose proof (filter_length_le (fun word => contains text_lower word) words).
  lia.
Qed.

Lemma positive_words_NoDup : NoDup positive_words.
Proof.
  assert (H : nodup (list_eq_dec N.eq_dec) positive_words = positive_words)
    by (vm_compute; reflexivity).
  rewrite <- H. apply NoDup_nodup.
Qed.

Lemma negative_words_NoDup : NoDup negative_words.
Proof.
  assert (H : nodup (list_eq_dec N.eq_dec) negative_words = negative_words)
    by (vm_compute; reflexivity).
  rewrite <- H. apply NoDup_nodup.
Qed.

(** [analyze] always returns, and what it returns. *)
Lemma analyze_returns (text : str) :
  let p := count_present positive_words (lower text) in
  let n := count_present negative_words (lower text) in
  let w := len (split text) in
  analyze text =
  Return {| positive_count := p;
            negative_count := n;
            sentiment := fst (label_of p n);
            emoji := snd (label_of p n);
            confidence := (inject_Z (Z.max p n) / inject_Z (w + 1))%Q;
            total_words := w |}.
Proof.
  intros p n w. unfold analyze. fold p n w.
  assert (Hw : (0 < w + 1)%Z) by (unfold w, len; lia).
  destruct (truediv_pos (Z.max p n) _ Hw) as [-> _].
  destruct (label_of p n) as [sentiment emoji]. reflexivity.
Qed.

Lemma analyze_sentiment_blank (text : str) (self : Instance) :
  strip text = [] ->
  analyze_sentiment text self = (Return empty_input_notice, self).
Proof. intros H. unfold analyze_sentiment. rewrite H. reflexivity. Qed.

Lemma analyze_sentiment_nonblank (text : str) (self : Instance) (a : Analysis) :
  strip text <> [] ->
  analyze text = Return a ->
  analyze_sentiment text self = (Return (result_text a), self).
Proof.
  intros H Ha. unfold analyze_sentiment.
  destruct (strip text) as [|c s]; [contradiction |]. cbn [truthy negb].
  unfold lift. rewrite Ha. reflexivity.
Qed.

Lemma label_of_cases (p n : Z) :
  ((p > n)%Z -> fst (label_of p n) = cps "Positive")
  /\ ((n > p)%Z -> fst (label_of p n) = cps "Negative")
  /\ (p = n -> fst (label_of p n) = cps "Neutral").
Proof.
  unfold label_of. repeat split; intros H.
  - destruct (Z.gtb_spec p n); [reflexivity | lia].
  - destruct (Z.gtb_spec p n); [lia |].
    destruct (Z.gtb_spec n p); [reflexivity | lia].
  - destruct (Z.gtb_spec p n); [lia |].
    destruct (Z.gtb_spec n p); [lia | reflexivity].
Qed.

(** ** [analyze_sentiment]: the claims *)

(** C1. For a text that is not empty after trimming, [analyze_sentiment]
    returns the formatted analysis whose label is Positive when
    [positive_count > negative_count], Negative when
    [negative_count > positive_count], and Neutral when the two counts are
    equal, the case of two zeros included. *)
Theorem analyze_sentiment_label (text : str) (self : Instance) :
  strip text <> [] ->
  exists a,
    analyze text = Return a
    /\ analyze_sentiment text self = (Return (result_text a), self)
    /\ ((positive_count a > negative_count a)%Z -> sentiment a = cps "Positive")
    /\ ((negative_count a > positive_count a)%Z -> sentiment a = cps "Negative")
    /\ (positive_count a = negative_count a -> sentiment a = cps "Neutral")
    /\ (positive_count a = 0%Z -> negative_count a = 0%Z ->
        sentiment a = cps "Neutral").
Proof.
  intros Hne. pose proof (analyze_returns text) as Ha. cbv zeta in Ha.
  eexists. split; [exact Ha |].
  split; [exact (analyze_sentiment_nonblank text self _ Hne Ha) |].
  cbn [positive_count negative_count sentiment].
  destruct (label_of_cases (count_present positive_words (lower text))
                           (count_present negative_words (lower text)))
    as (Hp & Hn & He).
  split; [exact Hp |]. split; [exact Hn |]. split; [exact He |].
  intros H0 H1. apply He. now rewrite H0, H1.
Qed.

(** C2. [positive_count] is the number of distinct entries of the 22-entry
    positive lexicon that occur in the lower-cased text, each entry counted
    once however often it occurs; [negative_count] is the same over the
    22-entry negative lexicon; both lie between 0 and 22; and
    "good good good" gives [positive_count = 1]. *)
Theorem analyze_sentiment_counts (text : str) :
  exists a,
    analyze text = Return a
    /\ (exists matched,
          NoDup matched
          /\ (forall w, In w matched <->
                        In w positive_words /\ occurs_in w (lower text))
          /\ positive_count a = len matched)
    /\ (exists matched,
          NoDup matched
          /\ (forall w, In w matched <->
                        In w negative_words /\ occurs_in w (lower text))
          /\ negative_count a = len matched)
    /\ (NoDup positive_words /\ len positive_words = 22%Z)
    /\ (NoDup negative_words /\ len negative_words = 22%Z)
    /\ (0 <= positive_count a <= 22)%Z
    /\ (0 <= negative_count a <= 22)%Z
    /\ (exists g, analyze (cps "good good good") = Return g
                  /\ positive_count g = 1%Z).
Proof.
  eexists. split; [apply analyze_returns |]. cbn [positive_count negative_count].
  split; [apply count_present_matched, positive_words_NoDup |].
  split; [apply count_present_matched, negative_words_NoDup |].
  split; [split; [apply positive_words_NoDup | reflexivity] |].
  split; [split; [apply negative_words_NoDup | reflexivity] |].
  split; [apply (count_present_range positive_words) |].
  split; [apply (count_present_range negative_words) |].
  eexists. split; [apply analyze_returns |]. vm_compute. reflexivity.
Qed.

(** C3. For a text that is not empty after trimming, the confidence that
    [analyze_sentiment] formats is
    [max(positive_count, negative_count) / (word_count + 1)], where
    [word_count] is the number of whitespace-delimited tokens of the text as
    given (not lower-cased): the tokens hold no whitespace, none is empty,
    and together they are the text without its whitespace. The denominator
    is 0 for no text at all, so the division never raises. *)
Theorem analyze_sentiment_confidence (text : str) (self : Instance) :
  strip text <> [] ->
  exists a,
    analyze text = Return a
    /\ analyze_sentiment text self = (Return (result_text a), self)
    /\ truediv (Z.max (positive_count a) (negative_count a)) (total_words a + 1)
       = Return (confidence a)
    /\ (confidence a ==
        Z.max (positive_count a) (negative_count a)
        # Z.to_pos (total_words a + 1))%Q
    /\ total_words a = len (split text)
    /\ total_words a = Z.of_nat (count_tokens text)
    /\ Forall (fun t => t <> [] /\ forallb (fun c => negb (isspace c)) t = true)
              (split text)
    /\ concat (split text) = filter (fun c => negb (isspace c)) text
    /\ (total_words a + 1 <> 0)%Z
    /\ (forall other, (len (split other) + 1 <> 0)%Z
                      /\ exists b, analyze other = Return b).
Proof.
  intros Hne. pose proof (analyze_returns text) as Ha. cbv zeta in Ha.
  eexists. split; [exact Ha |].
  split; [exact (analyze_sentiment_nonblank text self _ Hne Ha) |].
  cbn [positive_count negative_count confidence total_words].
  assert (Hw : (0 < len (split text) + 1)%Z) by (unfold len; lia).
  destruct (truediv_pos (Z.max (count_present positive_words (lower text))
                               (count_present negative_words (lower text))) _ Hw)
    as [Hdiv Hq].
  split; [exact Hdiv |]. split; [exact Hq |]. split; [reflexivity |].
  split; [unfold len; now rewrite split_length |].
  split; [apply split_from_tokens; reflexivity |].
  split; [apply (split_from_concat [] text) |].
  split; [lia |].
  intros other. split; [unfold len; lia |].
  eexists. apply analyze_returns.
Qed.

(** C4, as the code has it. For every text the confidence is at least 0 and
    at most [22 / (word_count + 1)] (so at most 11 for a text that is not
    blank, and above 1 for some), and it is 0 exactly when both counts
    are 0. *)
Theorem analyze_confidence_range (text : str) :
  exists a,
    analyze text = Return a
    /\ (0 <= confidence a)%Q
    /\ (confidence a <= 22 # Z.to_pos (total_words a + 1))%Q
    /\ (strip text <> [] -> (confidence a <= 11)%Q)
    /\ ((confidence a == 0)%Q <->
        positive_count a = 0%Z /\ negative_count a = 0%Z).
Proof.
  eexists. split; [apply analyze_returns |].
  cbn [positive_count negative_count confidence total_words].
  pose proof (count_present_range positive_words (lower text)) as Hp.
  pose proof (count_present_range negative_words (lower text)) as Hn.
  change (len positive_words) with 22%Z in Hp.
  change (len negative_words) with 22%Z in Hn.
  set (p := count_present positive_words (lower text)) in *.
  set (n := count_present negative_words (lower text)) in *.
  assert (Hw : (0 < len (split text) + 1)%Z) by (unfold len; lia).
  destruct (truediv_pos (Z.max p n) _ Hw) as [_ Hq]. rewrite Hq.
  set (d := Z.to_pos (len (split text) + 1)).
  assert (Hd : Zpos d = (len (split text) + 1)%Z) by (unfold d; lia).
  unfold Qle, Qeq. cbn [Qnum Qden].
  split; [lia |]. split; [nia |]. split.
  - intros Hne. apply strip_nonempty_tokens in Hne. nia.
  - lia.
Qed.

(** C5. A text whose trim is empty gets the notice
    "Please enter some text to analyze."; every other text gets a formatted
    analysis, which is never that notice; and [analyze_sentiment] raises for
    no text. *)
Theorem analyze_sentiment_empty_input (text : str) (self : Instance) :
  (strip text = [] ->
   analyze_sentiment text self = (Return empty_input_notice, self))
  /\ (strip text <> [] ->
      exists a, analyze text = Return a
                /\ analyze_sentiment text self = (Return (result_text a), self))
  /\ (forall a, result_text a <> empty_input_notice)
  /\ (exists out, fst (analyze_sentiment text self) = Return out)
  /\ analyze_sentiment (cps "") self = (Return empty_input_notice, self)
  /\ analyze_sentiment (cps "   ") self = (Return empty_input_notice, self).
Proof.
  pose proof (analyze_returns text) as Ha. cbv zeta in Ha.
  split; [apply analyze_sentiment_blank |].
  split.
  { intros Hne. eexists. split; [exact Ha |].
    exact (analyze_sentiment_nonblank text self _ Hne Ha). }
  split; [intros a H; discriminate H |].
  split; [| split; reflexivity].
  destruct (strip text) as [|c s] eqn:E.
  - exists empty_input_notice. rewrite analyze_sentiment_blank by exact E.
    reflexivity.
  - assert (Hne : strip text <> []) by (rewrite E; discriminate).
    rewrite (analyze_sentiment_nonblank text self _ Hne Ha).
    eexists. reflexivity.
Qed.

(** C9. "Thank you for the excellent customer service today." is labelled
    Positive; "thank you" and "excellent" both occur in it, lower-cased, so
    [positive_count >= 2] (it is 2), and [negative_count = 0]. *)
Theorem analyze_sentiment_thank_you (self : Instance) :
  let text := cps "Thank you for the excellent customer service today." in
  exists a,
    analyze text = Return a
    /\ analyze_sentiment text self = (Return (result_text a), self)
    /\ sentiment a = cps "Positive"
    /\ (positive_count a >= 2)%Z
    /\ positive_count a = 2%Z
    /\ occurs_in (cps "thank you") (lower text)
    /\ occurs_in (cps "excellent") (lower text)
    /\ negative_count a = 0%Z.
Proof.
  intros text.
  assert (Hne : strip text <> []) by (vm_compute; discriminate).
  pose proof (analyze_returns text) as Ha. cbv zeta in Ha.
  eexists. split; [exact Ha |].
  split; [exact (analyze_sentiment_nonblank text self _ Hne Ha) |].
  cbn [positive_count negative_count sentiment].
  split; [vm_compute; reflexivity |].
  split; [vm_compute; discriminate |].
  split; [vm_compute; reflexivity |].
  split; [apply contains_iff; vm_compute; reflexivity |].
  split; [apply contains_iff; vm_compute; reflexivity |].
  vm_compute; reflexivity.
Qed.

(** ** The conversation log: lemmas *)

Lemma slice_from_last (A : Type) (l : list A) (k : nat) :
  0 < k ->
  slice_from l (- Z.of_nat k) = skipn (List.length l - k) l.
Proof.
  intros Hk. unfold slice_from, len.
  destruct (Z.ltb_spec (- Z.of_nat k) 0) as [_ | H]; [| lia].
  f_equal. lia.
Qed.

Lemma fold_left_blocks (recs : list Conversation) (i : nat) (history : str) :
  fold_left (fun history '(i, conv) => history ++ history_block i conv)
            (enumerate recs (Z.of_nat i)) history
  = history ++ numbered_blocks i recs.
Proof.
  revert i history; induction recs as [|r recs IH]; intros i history.
  - simpl. now rewrite app_nil_r.
  - cbn [enumerate fold_left numbered_blocks].
    replace (Z.of_nat i + 1)%Z with (Z.of_nat (S i)) by lia.
    rewrite IH. now rewrite <- app_assoc.
Qed.

Lemma numbered_blocks_seq (recs : list Conversation) (i : nat) :
  numbered_blocks i recs
  = concat (map (fun '(j, r) => history_block (Z.of_nat j) r)
                (combine (seq i (List.length recs)) recs)).
Proof.
  revert i; induction recs as [|r recs IH]; intros i; [reflexivity |].
  cbn [numbered_blocks List.length seq combine map concat]. now rewrite IH.
Qed.

Lemma get_conversation_history_render (self : Instance) :
  get_conversation_history self
  = (Return (render_recent 10 (conversation_history self)), self).
Proof.
  unfold get_conversation_history, bind, get_conversation_history_attr, ret.
  destruct (conversation_history self) as [|r log] eqn:E; [reflexivity |].
  cbn [truthy negb render_recent]. do 2 f_equal.
  change (-10)%Z with (- Z.of_nat 10)%Z.
  rewrite slice_from_last by lia.
  change 1%Z with (Z.of_nat 1). apply fold_left_blocks.
Qed.

Lemma generate_response_raise (w : World) (user_input : str) (self : Instance)
      (e : Exception) :
  inference w user_input = Raise e ->
  generate_response w user_input self
  = (Return (cps "Error: " ++ exc_str e), self).
Proof.
  intros H. unfold generate_response, try_except, bind, lift. rewrite H.
  reflexivity.
Qed.

Lemma generate_response_return (w : World) (user_input : str) (self : Instance)
      (response_text : str) :
  inference w user_input = Return response_text ->
  generate_response w user_input self
  = (Return response_text,
     {| api_key := api_key self;
        conversation_history :=
          conversation_history self
          ++ [ {| timestamp := now w;
                  user_input := user_input;
                  ai_response := response_text |} ] |}).
Proof.
  intros H. unfold generate_response, try_except, bind, lift. rewrite H.
  reflexivity.
Qed.

Lemma analyze_sentiment_keeps (text : str) (self : Instance) :
  snd (analyze_sentiment text self) = self.
Proof.
  unfold analyze_sentiment. destruct (negb (truthy (strip text))); reflexivity.
Qed.

Lemma perform_history (c : Call) (self : Instance) :
  conversation_history (snd (perform c self)) = conversation_history self
  \/ exists conv,
       conversation_history (snd (perform c self))
       = conversation_history self ++ [conv].
Proof.
  destruct c as [w user_input | text |]; cbn [perform].
  - destruct (inference w user_input) as [response_text | e] eqn:E.
    + right. rewrite (generate_response_return _ _ _ _ E). eexists. reflexivity.
    + left. now rewrite (generate_response_raise _ _ _ _ E).
  - left. now rewrite analyze_sentiment_keeps.
  - left. now rewrite get_conversation_history_render.
Qed.

Lemma perform_all_history (cs : list Call) (self : Instance) :
  exists added,
    conversation_history (perform_all cs self)
    = conversation_history self ++ added
    /\ List.length added <= List.length cs.
Proof.
  revert self; induction cs as [|c cs IH]; intros self.
  - exists []. simpl. now rewrite app_nil_r.
  - cbn [perform_all fold_left]. fold (perform_all cs (snd (perform c self))).
    destruct (IH (snd (perform c self))) as (added & Hadd & Hlen).
    destruct (perform_history c self) as [Hsame | [conv Hone]].
    + exists added. rewrite Hadd, Hsame. split; [reflexivity | simpl; lia].
    + exists (conv :: added). rewrite Hadd, Hone, <- app_assoc.
      split; [reflexivity | simpl; lia].
Qed.

Lemma str_eqb_false (a b : str) : str_eqb a b = false -> a <> b.
Proof.
  unfold str_eqb. destruct (list_eq_dec N.eq_dec a b); [discriminate | auto].
Qed.

(** ** The conversation log: the claims *)

(** C6, as the code has it. [get_conversation_history] takes no limit: its
    window is the constant 10. On a log of N records it returns the header
    and then the last [min 10 N] records, oldest first, as blocks numbered
    from 1: the last 10 (the earliest N-10 skipped) when N > 10, all N when
    N <= 10. *)
Theorem get_conversation_history_window (self : Instance) :
  let log := conversation_history self in
  let window := last_records 10 log in
  get_conversation_history self = (Return (render_recent 10 log), self)
  /\ (log <> [] ->
      render_recent 10 log
      = history_header
        ++ concat (map (fun '(j, r) => history_block (Z.of_nat j) r)
                       (combine (seq 1 (List.length window)) window)))
  /\ (10 < List.length log ->
      List.length window = 10
      /\ exists earliest,
          List.length earliest = List.length log - 10
          /\ log = earliest ++ window)
  /\ (List.length log <= 10 -> window = log).
Proof.
  intros log window. split; [apply get_conversation_history_render |].
  split; [| split].
  - intros Hne. unfold render_recent. destruct log as [|r l] eqn:E.
    + contradiction.
    + fold window. now rewrite numbered_blocks_seq.
  - intros Hlen. unfold window, last_records. split.
    + rewrite length_skipn. lia.
    + exists (firstn (List.length log - 10) log). split.
      * rewrite length_firstn. lia.
      * now rewrite firstn_skipn.
  - intros Hlen. unfold window, last_records.
    replace (List.length log - 10) with 0 by lia. reflexivity.
Qed.

(** C7. On an empty log [get_conversation_history] returns the message
    "No conversation history yet." (after its emoji): it does not raise and
    the text is not empty. *)
Theorem get_conversation_history_empty (self : Instance) :
  conversation_history self = [] ->
  get_conversation_history self = (Return no_history_message, self)
  /\ no_history_message = [0x1F4DD%N] ++ cps " No conversation history yet."
  /\ no_history_message <> [].
Proof.
  intros H.
  unfold get_conversation_history, bind, get_conversation_history_attr, ret.
  rewrite H. cbn [truthy negb].
  split; [reflexivity |]. split; [reflexivity | discriminate].
Qed.

(** C8. The log is append-only. [analyze_sentiment] and
    [get_conversation_history] return the instance as they got it;
    [generate_response], and so every call, leaves the log as it was or adds
    one record at its end; after any sequence of calls the log is the log
    before followed by at most one new record per call. *)
Theorem conversation_history_append_only :
  (forall text self, snd (analyze_sentiment text self) = self)
  /\ (forall self, snd (get_conversation_history self) = self)
  /\ (forall w user_input self,
        let self' := snd (generate_response w user_input self) in
        self' = self
        \/ exists conv,
             conversation_history self' = conversation_history self ++ [conv])
  /\ (forall c self,
        conversation_history (snd (perform c self)) = conversation_history self
        \/ exists conv,
             conversation_history (snd (perform c self))
             = conversation_history self ++ [conv])
  /\ (forall cs self,
        exists added,
          conversation_history (perform_all cs self)
          = conversation_history self ++ added
          /\ List.length added <= List.length cs).
Proof.
  split; [apply analyze_sentiment_keeps |].
  split; [intros self; now rewrite get_conversation_history_render |].
  split; [| split; [apply perform_history | apply perform_all_history]].
  intros w user_input self self'. subst self'.
  destruct (inference w user_input) as [response_text | e] eqn:E.
  - right. rewrite (generate_response_return _ _ _ _ E). eexists. reflexivity.
  - left. now rewrite (generate_response_raise _ _ _ _ E).
Qed.

(** C10, as the code has it. [generate_response] never raises. When the
    call to the endpoint raises, it returns "Error: " followed by the
    exception's text and the instance is unchanged. When the call returns a
    completion without any choice, reading the first choice raises inside
    the same [try]: it returns "Error: list index out of range" and the
    instance is unchanged. When the call returns a completion with at least
    one choice, it returns the text of the first choice and the log gains
    exactly one record at its end, holding the clock's timestamp, the user
    input and that text. *)
Theorem generate_response_outcome (w : World) (user_input : str) (self : Instance) :
  (exists out, fst (generate_response w user_input self) = Return out)
  /\ (forall e,
        create w (chat_request user_input) = Raise e ->
        generate_response w user_input self
        = (Return (cps "Error: " ++ exc_str e), self))
  /\ (forall completion,
        create w (chat_request user_input) = Return completion ->
        choices completion = [] ->
        generate_response w user_input self
        = (Return (cps "Error: list index out of range"), self))
  /\ (forall completion choice rest,
        create w (chat_request user_input) = Return completion ->
        choices completion = choice :: rest ->
        generate_response w user_input self
        = (Return (content (message choice)),
           {| api_key := api_key self;
              conversation_history :=
                conversation_history self
                ++ [ {| timestamp := now w;
                        user_input := user_input;
                        ai_response := content (message choice) |} ] |})).
Proof.
  split; [| split; [| split]].
  - destruct (inference w user_input) as [response_text | e] eqn:E.
    + rewrite (generate_response_return _ _ _ _ E). eexists. reflexivity.
    + rewrite (generate_response_raise _ _ _ _ E). eexists. reflexivity.
  - intros e H. apply generate_response_raise.
    unfold inference. rewrite H. reflexivity.
  - intros completion H Hc.
    assert (E : inference w user_input
                = Raise (IndexError (cps "list index out of range"))).
    { unfold inference. rewrite H. cbn [py_bind]. rewrite Hc. reflexivity. }
    rewrite (generate_response_raise _ _ _ _ E). reflexivity.
  - intros completion choice rest H Hc. apply generate_response_return.
    unfold inference. rewrite H. cbn [py_bind]. rewrite Hc. reflexivity.
Qed.

(** ** Further properties of [analyze_sentiment] *)

Lemma count_present_pos (words : list str) (text_lower w : str) :
  In w words -> occurs_in w text_lower ->
  (1 <= count_present words text_lower)%Z.
Proof.
  intros Hin Hocc. rewrite count_present_len. unfold len.
  assert (H : In w (filter (fun word => contains text_lower word) words)).
  { apply filter_In. split; [exact Hin | now apply contains_iff]. }
  destruct (filter (fun word => contains text_lower word) words);
    [contradiction | simpl; lia].
Qed.

Lemma count_present_zero (words : list str) (text_lower : str) :
  (forall w, In w words -> ~ occurs_in w text_lower) ->
  count_present words text_lower = 0%Z.
Proof.
  intros H. rewrite count_present_len.
  destruct (filter (fun word => contains text_lower word) words) as [|w l] eqn:E;
    [reflexivity |].
  exfalso. assert (Hw : In w (filter (fun word => contains text_lower word) words))
    by (rewrite E; now left).
  apply filter_In in Hw as [Hin Hc]. apply (H w Hin). now apply contains_iff.
Qed.

Lemma absent_all (words : list str) (text_lower : str) :
  forallb (fun w => negb (contains text_lower w)) words = true ->
  forall w, In w words -> ~ occurs_in w text_lower.
Proof.
  intros H w Hin Hocc. rewrite forallb_forall in H. specialize (H w Hin).
  apply contains_iff in Hocc. rewrite Hocc in H. discriminate.
Qed.

Lemma lower_from_ascii (whole : str) (i : nat) (s : str) :
  is_ascii s = true -> lower_from whole i s = map ascii_lower s.
Proof.
  revert i; induction s as [|c s IH]; intros i H; [reflexivity |].
  cbn [is_ascii forallb] in H. apply andb_true_iff in H as [Hc Hs].
  cbn [lower_from map]. rewrite Hc. cbn [app]. f_equal. now apply IH.
Qed.

Lemma isspace_ascii_lower (c : codepoint) :
  isspace (ascii_lower c) = isspace c.
Proof.
  unfold ascii_lower.
  destruct ((65 <=? c) && (c <=? 90))%N eqn:E; [| reflexivity].
  apply andb_true_iff in E as [Hlo Hhi].
  apply N.leb_le in Hlo. apply N.leb_le in Hhi.
  assert (Hns : forall x, (33 <= x <= 122)%N -> isspace x = false).
  { intros x Hx. apply not_true_is_false. unfold isspace. intros H.
    repeat rewrite ?orb_true_iff, ?andb_true_iff, ?N.leb_le, ?N.eqb_eq in H.
    lia. }
  rewrite (Hns c), (Hns (c + 32)%N) by lia. reflexivity.
Qed.

Lemma token_starts_map (b : bool) (s1 s2 : str) :
  map isspace s1 = map isspace s2 -> token_starts b s1 = token_starts b s2.
Proof.
  revert b s2; induction s1 as [|c s1 IH]; intros b [|d s2] H;
    try discriminate; [reflexivity |].
  cbn [map] in H. injection H as Hc Hs. cbn [token_starts]. rewrite Hc.
  destruct (isspace d); [now apply IH | f_equal; now apply IH].
Qed.

Lemma forallb_isspace_map (s1 s2 : str) :
  map isspace s1 = map isspace s2 -> forallb isspace s1 = forallb isspace s2.
Proof.
  revert s2; induction s1 as [|c s1 IH]; intros [|d s2] H;
    try discriminate; [reflexivity |].
  cbn [map] in H. injection H as Hc Hs. cbn [forallb]. rewrite Hc.
  f_equal. now apply IH.
Qed.

Lemma isspace_map_lower (s : str) :
  map isspace (map ascii_lower s) = map isspace s.
Proof.
  rewrite map_map. apply map_ext. intros c. apply isspace_ascii_lower.
Qed.

Lemma truthy_strip (s : str) :
  truthy (strip s) = negb (forallb isspace s).
Proof.
  destruct (forallb isspace s) eqn:E.
  - apply strip_nil_iff in E. now rewrite E.
  - destruct (strip s) eqn:Es; [| reflexivity].
    apply strip_nil_iff in Es. congruence.
Qed.

(** X1. One-sided texts. When some entry of the positive lexicon occurs in
    the lower-cased text and no entry of the negative lexicon does, the
    label is Positive; with the lexicons exchanged it is Negative. *)
Theorem analyze_one_sided (text : str) :
  exists a,
    analyze text = Return a
    /\ ((exists w, In w positive_words /\ occurs_in w (lower text)) ->
        (forall w, In w negative_words -> ~ occurs_in w (lower text)) ->
        sentiment a = cps "Positive"
        /\ (1 <= positive_count a)%Z /\ negative_count a = 0%Z)
    /\ ((exists w, In w negative_words /\ occurs_in w (lower text)) ->
        (forall w, In w positive_words -> ~ occurs_in w (lower text)) ->
        sentiment a = cps "Negative"
        /\ (1 <= negative_count a)%Z /\ positive_count a = 0%Z).
Proof.
  eexists. split; [apply analyze_returns |].
  cbn [positive_count negative_count sentiment].
  destruct (label_of_cases (count_present positive_words (lower text))
                           (count_present negative_words (lower text)))
    as (Hp & Hn & _).
  split.
  - intros (w & Hin & Hocc) Hnone.
    pose proof (count_present_pos positive_words (lower text) w Hin Hocc) as H1.
    pose proof (count_present_zero negative_words (lower text) Hnone) as H0.
    split; [apply Hp; lia | split; [exact H1 | exact H0]].
  - intros (w & Hin & Hocc) Hnone.
    pose proof (count_present_pos negative_words (lower text) w Hin Hocc) as H1.
    pose proof (count_present_zero positive_words (lower text) Hnone) as H0.
    split; [apply Hn; lia | split; [exact H1 | exact H0]].
Qed.

(** X2. Letter case of ASCII text does not matter. Two ASCII texts that are
    equal once their letters A-Z are lower-cased get the same analysis and
    the same answer of [analyze_sentiment]. *)
Theorem analyze_sentiment_ignores_case (t1 t2 : str) (self : Instance) :
  is_ascii t1 = true ->
  is_ascii t2 = true ->
  map ascii_lower t1 = map ascii_lower t2 ->
  analyze t1 = analyze t2
  /\ analyze_sentiment t1 self = analyze_sentiment t2 self.
Proof.
  intros H1 H2 Heq.
  assert (Hlow : lower t1 = lower t2).
  { unfold lower. rewrite !lower_from_ascii by assumption. exact Heq. }
  assert (Hsp : map isspace t1 = map isspace t2).
  { rewrite <- (isspace_map_lower t1), <- (isspace_map_lower t2).
    now rewrite Heq. }
  assert (Hlen : len (split t1) = len (split t2)).
  { unfold len. rewrite !split_length. unfold count_tokens.
    now rewrite (token_starts_map true t1 t2 Hsp). }
  assert (Ha : analyze t1 = analyze t2).
  { rewrite (analyze_returns t1), (analyze_returns t2). cbv zeta.
    rewrite Hlow, Hlen. reflexivity. }
  split; [exact Ha |].
  unfold analyze_sentiment.
  rewrite !truthy_strip, (forallb_isspace_map t1 t2 Hsp), Ha. reflexivity.
Qed.

(** X3. The guard and the word count agree. [analyze_sentiment] answers
    with the notice exactly for the texts [split] finds no word in; every
    text it analyses has at least one word. *)
Theorem analyze_sentiment_notice_iff_no_word (text : str) (self : Instance) :
  (fst (analyze_sentiment text self) = Return empty_input_notice
   <-> split text = [])
  /\ (split text = [] <-> strip text = [])
  /\ (split text <> [] ->
      exists a, analyze_sentiment text self = (Return (result_text a), self)
                /\ (1 <= total_words a)%Z).
Proof.
  assert (Hiff : split text = [] <-> strip text = []).
  { rewrite strip_nil_iff. split.
    - intros H. apply (f_equal (@List.length str)) in H.
      rewrite split_length in H. unfold count_tokens in H. simpl in H.
      destruct (forallb isspace text) eqn:E; [reflexivity |].
      apply token_starts_pos in E. lia.
    - intros H. apply (token_starts_all_space true) in H.
      fold (count_tokens text) in H. rewrite <- split_length in H.
      destruct (split text); [reflexivity | discriminate]. }
  pose proof (analyze_returns text) as Ha. cbv zeta in Ha.
  split; [| split; [exact Hiff |]].
  - rewrite Hiff. split.
    + intros H. destruct (strip text) as [|c s] eqn:E; [reflexivity |].
      assert (Hne : strip text <> []) by (rewrite E; discriminate).
      rewrite (analyze_sentiment_nonblank text self _ Hne Ha) in H.
      discriminate H.
    + intros H. now rewrite (analyze_sentiment_blank text self H).
  - intros Hne. assert (Hs : strip text <> []) by (now rewrite <- Hiff).
    eexists. split; [exact (analyze_sentiment_nonblank text self _ Hs Ha) |].
    cbn [total_words]. now apply strip_nonempty_tokens.
Qed.

(** X4. The lexicon entries do not overlap. A text that is one entry of the
    positive lexicon matches that entry alone and nothing of the negative
    lexicon, and is labelled Positive; the same holds with the lexicons
    exchanged; no word is in both lexicons. *)
Theorem lexicon_entry_alone (w : str) :
  (In w positive_words ->
   exists a, analyze w = Return a
             /\ positive_count a = 1%Z /\ negative_count a = 0%Z
             /\ sentiment a = cps "Positive")
  /\ (In w negative_words ->
      exists a, analyze w = Return a
                /\ positive_count a = 0%Z /\ negative_count a = 1%Z
                /\ sentiment a = cps "Negative")
  /\ ~ (In w positive_words /\ In w negative_words).
Proof.
  assert (Hp : forallb (fun w =>
                 (count_present positive_words (lower w) =? 1)%Z
                 && (count_present negative_words (lower w) =? 0)%Z)
               positive_words = true) by (vm_compute; reflexivity).
  assert (Hn : forallb (fun w =>
                 (count_present positive_words (lower w) =? 0)%Z
                 && (count_present negative_words (lower w) =? 1)%Z)
               negative_words = true) by (vm_compute; reflexivity).
  rewrite forallb_forall in Hp, Hn.
  split; [| split].
  - intros Hin. specialize (Hp w Hin). apply andb_true_iff in Hp as [H1 H0].
    apply Z.eqb_eq in H1. apply Z.eqb_eq in H0.
    eexists. split; [apply analyze_returns |].
    cbn [positive_count negative_count sentiment]. rewrite H1, H0.
    repeat split.
  - intros Hin. specialize (Hn w Hin). apply andb_true_iff in Hn as [H0 H1].
    apply Z.eqb_eq in H1. apply Z.eqb_eq in H0.
    eexists. split; [apply analyze_returns |].
    cbn [positive_count negative_count sentiment]. rewrite H1, H0.
    repeat split.
  - intros [Hin1 Hin2]. specialize (Hp w Hin1). specialize (Hn w Hin2).
    apply andb_true_iff in Hp as [H1 _]. apply andb_true_iff in Hn as [H0 _].
    apply Z.eqb_eq in H1. apply Z.eqb_eq in H0. congruence.
Qed.

(** ** Further properties of the conversation log *)

Lemma numbered_blocks_snoc (i : nat) (recs : list Conversation) (r : Conversation) :
  numbered_blocks i (recs ++ [r])
  = numbered_blocks i recs ++ history_block (Z.of_nat (i + List.length recs)) r.
Proof.
  revert i; induction recs as [|c recs IH]; intros i.
  - simpl. now rewrite Nat.add_0_r, app_nil_r.
  - cbn [app numbered_blocks List.length]. rewrite IH, <- app_assoc.
    now replace (S i + List.length recs) with (i + S (List.length recs)) by lia.
Qed.

Lemma last_records_snoc (k : nat) (log : list Conversation) (r : Conversation) :
  last_records (S k) (log ++ [r]) = last_records k log ++ [r].
Proof.
  unfold last_records. rewrite length_app. cbn [List.length].
  replace (List.length log + 1 - S k) with (List.length log - k) by lia.
  rewrite skipn_app.
  replace (List.length log - k - List.length log) with 0 by lia.
  reflexivity.
Qed.

Lemma last_records_app (older recent : list Conversation) :
  last_records (List.length recent) (older ++ recent) = recent.
Proof.
  unfold last_records. rewrite length_app.
  replace (List.length older + List.length recent - List.length recent)
    with (List.length older) by lia.
  rewrite skipn_app, skipn_all, Nat.sub_diag. reflexivity.
Qed.

Lemma perform_step (c : Call) (self : Instance) :
  snd (perform c self)
  = {| api_key := api_key self;
       conversation_history := conversation_history self ++ records_of [c] |}.
Proof.
  assert (Hsame : self = {| api_key := api_key self;
                            conversation_history := conversation_history self ++ [] |})
    by (destruct self; cbn; now rewrite app_nil_r).
  destruct c as [w user_input | text |]; cbn [perform records_of flat_map].
  - destruct (inference w user_input) as [response_text | e] eqn:E.
    + rewrite (generate_response_return _ _ _ _ E). cbn [snd].
      now rewrite app_nil_r.
    + rewrite (generate_response_raise _ _ _ _ E). exact Hsame.
  - rewrite analyze_sentiment_keeps. exact Hsame.
  - rewrite get_conversation_history_render. exact Hsame.
Qed.

(** X5. Only the last ten records show. A log that ends in ten records
    [recent] is rendered as the log [recent] alone is, whatever came before
    them: older records leave the view, and the numbering restarts at 1. *)
Theorem get_conversation_history_last_ten
        (key : str) (older recent : list Conversation) :
  List.length recent = 10 ->
  fst (get_conversation_history
         {| api_key := key; conversation_history := older ++ recent |})
  = fst (get_conversation_history
           {| api_key := key; conversation_history := recent |})
  /\ fst (get_conversation_history
            {| api_key := key; conversation_history := recent |})
     = Return (history_header ++ numbered_blocks 1 recent).
Proof.
  intros Hlen. rewrite !get_conversation_history_render.
  cbn [fst conversation_history].
  assert (Hw : last_records 10 (older ++ recent) = recent)
    by (rewrite <- Hlen; apply last_records_app).
  assert (Hr : last_records 10 recent = recent).
  { unfold last_records. rewrite Hlen. reflexivity. }
  unfold render_recent.
  destruct recent as [|r recent]; [discriminate Hlen |].
  rewrite Hr. split; [| reflexivity].
  destruct (older ++ r :: recent) as [|c l] eqn:E.
  - destruct older; discriminate E.
  - now rewrite Hw.
Qed.

(** X6. The latest record is shown last. When the log ends in record [r],
    the rendered history ends in the block of [r], numbered [min(10, N)]
    for a log of N records. *)
Theorem get_conversation_history_latest_last
        (self : Instance) (log : list Conversation) (r : Conversation) :
  conversation_history self = log ++ [r] ->
  exists before,
    fst (get_conversation_history self)
    = Return (before
              ++ history_block (Z.min 10 (len (conversation_history self))) r).
Proof.
  intros H. rewrite get_conversation_history_render. cbn [fst]. rewrite H.
  unfold render_recent. destruct (log ++ [r]) as [|c l] eqn:E.
  - destruct log; discriminate E.
  - rewrite <- E. rewrite (last_records_snoc 9 log r), numbered_blocks_snoc.
    exists (history_header ++ numbered_blocks 1 (last_records 9 log)).
    rewrite <- app_assoc. do 4 f_equal.
    unfold last_records, len. rewrite length_skipn, length_app.
    cbn [List.length]. lia.
Qed.

(** X7. What a sequence of calls leaves in the log. After any calls on the
    instance the log is the log before, followed by one record for each
    [generate_response] whose inference step yielded a text, in call order
    and with that call's timestamp, input and text; the key is unchanged. *)
Theorem perform_all_records (cs : list Call) (self : Instance) :
  conversation_history (perform_all cs self)
  = conversation_history self ++ records_of cs
  /\ api_key (perform_all cs self) = api_key self.
Proof.
  revert self; induction cs as [|c cs IH]; intros self.
  - cbn. now rewrite app_nil_r.
  - cbn [perform_all fold_left]. fold (perform_all cs (snd (perform c self))).
    destruct (IH (snd (perform c self))) as [Hh Hk].
    rewrite Hh, Hk, perform_step. cbn [conversation_history api_key].
    split; [| reflexivity].
    rewrite <- app_assoc. f_equal.
    change (c :: cs) with ([c] ++ cs). unfold records_of.
    now rewrite flat_map_app.
Qed.

(** ** Properties of the module-level functions *)

Lemma dict_get_in (d : list (str * str)) (key value default : str) :
  NoDup (map fst d) -> In (key, value) d -> dict_get d key default = value.
Proof.
  unfold dict_get. induction d as [|[k v] d IH]; intros Hnd Hin; [contradiction |].
  cbn [map fst] in Hnd. inversion Hnd as [|? ? Hk Hd]; subst.
  cbn [find fst]. unfold str_eqb at 1.
  destruct (list_eq_dec N.eq_dec k key) as [-> | Hne].
  - destruct Hin as [Heq | Hin]; [now injection Heq |].
    exfalso. apply Hk. apply in_map_iff. now exists (key, value).
  - destruct Hin as [Heq | Hin]; [injection Heq as -> _; contradiction |].
    now apply IH.
Qed.

Lemma dict_get_missing (d : list (str * str)) (key default : str) :
  ~ In key (map fst d) -> dict_get d key default = default.
Proof.
  unfold dict_get. induction d as [|[k v] d IH]; intros Hno; [reflexivity |].
  cbn [find fst]. unfold str_eqb at 1.
  destruct (list_eq_dec N.eq_dec k key) as [-> | Hne].
  - exfalso. apply Hno. now left.
  - apply IH. intros H. apply Hno. now right.
Qed.

Lemma chat_with_ai_blank (w : World) (message : str) (history : ChatHistory)
      (self : Instance) :
  strip message = [] ->
  chat_with_ai w message history (Some self)
  = (Return (history ++ [(message, cps "Please enter a message.")]), Some self).
Proof. intros H. unfold chat_with_ai. rewrite H. reflexivity. Qed.

Lemma chat_with_ai_raise (w : World) (message : str) (history : ChatHistory)
      (self : Instance) (e : Exception) :
  strip message <> [] ->
  inference w message = Raise e ->
  chat_with_ai w message history (Some self)
  = (Return (history ++ [(message, cps "Error: " ++ exc_str e)]), Some self).
Proof.
  intros H E. unfold chat_with_ai.
  destruct (strip message); [contradiction |]. cbn [truthy negb].
  now rewrite (generate_response_raise _ _ _ _ E).
Qed.

Lemma chat_with_ai_return (w : World) (message : str) (history : ChatHistory)
      (self : Instance) (response_text : str) :
  strip message <> [] ->
  inference w message = Return response_text ->
  chat_with_ai w message history (Some self)
  = (Return (history ++ [(message, response_text)]),
     Some {| api_key := api_key self;
             conversation_history :=
               conversation_history self
               ++ [ {| timestamp := now w;
                       user_input := message;
                       ai_response := response_text |} ] |}).
Proof.
  intros H E. unfold chat_with_ai.
  destruct (strip message); [contradiction |]. cbn [truthy negb].
  now rewrite (generate_response_return _ _ _ _ E).
Qed.

(** The handler of an event other than a click on Initialize keeps the
    instance, up to records added at the end of its log. *)
Lemma handle_grows (ev : Event) (self : Instance) :
  match ev with ClickInitialize _ => False | _ => True end ->
  exists added,
    handle ev (Some self)
    = Some {| api_key := api_key self;
              conversation_history := conversation_history self ++ added |}
    /\ List.length added <= 1.
Proof.
  assert (Hsame : Some self
                  = Some {| api_key := api_key self;
                            conversation_history := conversation_history self ++ [] |})
    by (destruct self; cbn; now rewrite app_nil_r).
  destruct ev as [env | w message history | text | | current_time];
    intros Hev; [contradiction | | | |]; cbn [handle].
  - destruct (strip message) as [|c s] eqn:Es.
    + rewrite (chat_with_ai_blank _ _ _ _ Es). exists []. split; [exact Hsame | simpl; lia].
    + assert (Hne : strip message <> []) by (rewrite Es; discriminate).
      destruct (inference w message) as [response_text | e] eqn:E.
      * rewrite (chat_with_ai_return _ _ _ _ _ Hne E). eexists.
        split; [reflexivity | simpl; lia].
      * rewrite (chat_with_ai_raise _ _ _ _ _ Hne E). exists [].
        split; [exact Hsame | simpl; lia].
  - unfold analyze_sentiment_gradio.
    pose proof (analyze_sentiment_keeps text self) as Hk.
    destruct (analyze_sentiment text self) as [out self']. cbn [snd] in *.
    subst self'. exists []. split; [exact Hsame | simpl; lia].
  - unfold get_history. rewrite get_conversation_history_render. cbn [snd].
    exists []. split; [exact Hsame | simpl; lia].
  - exists []. split; [exact Hsame | simpl; lia].
Qed.

Lemma CitizenAI_new_fresh (env : Env) (self : Instance) :
  CitizenAI_new env = Return self ->
  conversation_history self = []
  /\ hf_api_token env = Some (api_key self)
  /\ api_key self <> [].
Proof.
  intros H. unfold CitizenAI_new, init in H.
  destruct (hf_api_token env) as [[|c key] |]; try discriminate H.
  cbn [py_bind api_key] in H.
  destruct (new_client env (c :: key)); [| discriminate H].
  injection H as <-. cbn. repeat split. discriminate.
Qed.

(** X8. [initialize_ai] never raises. Without a token, or with an empty
    one, it reports "Failed to initialize AI: HF_API_TOKEN not found in
    environment variables"; on any exception of the constructor it reports
    the exception's text; in both cases [ai] stays what it was. When the
    constructor returns, [ai] becomes the new instance, whose log is empty
    and whose key is the token. *)
Theorem initialize_ai_outcome (env : Env) (ai : GlobalAi) :
  (exists out, fst (initialize_ai env ai) = Return out)
  /\ (hf_api_token env = None \/ hf_api_token env = Some [] ->
      initialize_ai env ai
      = (Return ([0x274C%N] ++ cps " Failed to initialize AI: "
                 ++ cps "HF_API_TOKEN not found in environment variables"), ai))
  /\ (forall e,
        CitizenAI_new env = Raise e ->
        initialize_ai env ai
        = (Return ([0x274C%N] ++ cps " Failed to initialize AI: " ++ exc_str e),
           ai))
  /\ (forall self,
        CitizenAI_new env = Return self ->
        initialize_ai env ai = (Return initialized_message, Some self)
        /\ conversation_history self = []
        /\ hf_api_token env = Some (api_key self)
        /\ api_key self <> []).
Proof.
  split; [| split; [| split]].
  - unfold initialize_ai. destruct (CitizenAI_new env); eexists; reflexivity.
  - intros H. unfold initialize_ai, CitizenAI_new.
    destruct H as [-> | ->]; reflexivity.
  - intros e H. unfold initialize_ai. now rewrite H.
  - intros self H. unfold initialize_ai. rewrite H.
    split; [reflexivity | now apply CitizenAI_new_fresh].
Qed.

(** X9. Initializing again starts a new log. After a click on Initialize
    that succeeds, the history view shows the no-history message and the
    dashboard counts 0 conversations, whatever the log held before. *)
Theorem initialize_ai_resets_history (env : Env) (ai : GlobalAi) (self : Instance) :
  CitizenAI_new env = Return self ->
  get_history (snd (initialize_ai env ai))
  = (Return no_history_message, Some self)
  /\ (forall current_time,
        fst (get_dashboard_stats current_time (snd (initialize_ai env ai)))
        = Return (stats_text 0 current_time, analytics_text 0)).
Proof.
  intros H. destruct (CitizenAI_new_fresh env self H) as (Hlog & _).
  unfold initialize_ai. rewrite H. cbn [snd].
  split.
  - unfold get_history. rewrite get_conversation_history_render, Hlog.
    reflexivity.
  - intros current_time. unfold get_dashboard_stats. rewrite Hlog. reflexivity.
Qed.

(** X10. One turn of the chat. [chat_with_ai] never raises and adds exactly
    one pair to the chat display, the message with a reply. With an
    instance: a blank message gets "Please enter a message." and reaches
    neither the endpoint nor the log; a message whose inference step raises
    gets "Error: " with the exception's text and the log is unchanged; a
    message whose inference step yields a text gets that text, and the log
    gains the record of this message and this text. *)
Theorem chat_with_ai_outcome
        (w : World) (message : str) (history : ChatHistory) (self : Instance) :
  (forall ai, exists reply,
      fst (chat_with_ai w message history ai)
      = Return (history ++ [(message, reply)]))
  /\ (strip message = [] ->
      chat_with_ai w message history (Some self)
      = (Return (history ++ [(message, cps "Please enter a message.")]),
         Some self))
  /\ (strip message <> [] ->
      forall e,
        inference w message = Raise e ->
        chat_with_ai w message history (Some self)
        = (Return (history ++ [(message, cps "Error: " ++ exc_str e)]),
           Some self))
  /\ (strip message <> [] ->
      forall response_text,
        inference w message = Return response_text ->
        chat_with_ai w message history (Some self)
        = (Return (history ++ [(message, response_text)]),
           Some {| api_key := api_key self;
                   conversation_history :=
                     conversation_history self
                     ++ [ {| timestamp := now w;
                             user_input := message;
                             ai_response := response_text |} ] |})).
Proof.
  split; [| split; [| split]].
  - intros [self0 |]; [| eexists; reflexivity].
    destruct (strip message) as [|c s] eqn:Es.
    + rewrite (chat_with_ai_blank _ _ _ _ Es). eexists. reflexivity.
    + assert (Hne : strip message <> []) by (rewrite Es; discriminate).
      destruct (inference w message) as [response_text | e] eqn:E.
      * rewrite (chat_with_ai_return _ _ _ _ _ Hne E). eexists. reflexivity.
      * rewrite (chat_with_ai_raise _ _ _ _ _ Hne E). eexists. reflexivity.
  - apply chat_with_ai_blank.
  - intros Hne e. now apply chat_with_ai_raise.
  - intros Hne response_text. now apply chat_with_ai_return.
Qed.

(** X11. Nothing happens before initialization, and initialization lasts.
    While every click on Initialize fails, [ai] stays [None] through any
    events, so no handler reaches the instance or the endpoint; once [ai]
    holds an instance, no event makes it [None] again. *)
Theorem session_initialization (evs : list Event) :
  (Forall (fun ev =>
             match ev with
             | ClickInitialize env => exists e, CitizenAI_new env = Raise e
             | _ => True
             end) evs ->
   handle_all evs None = None)
  /\ (forall self, exists self', handle_all evs (Some self) = Some self').
Proof.
  split.
  - induction evs as [|ev evs IH]; intros H; [reflexivity |].
    inversion H as [|? ? Hev Hevs]; subst.
    cbn [handle_all fold_left]. fold (handle_all evs (handle ev None)).
    assert (Hnone : handle ev None = None).
    { destruct ev as [env | w message history | text | | current_time];
        try reflexivity.
      destruct Hev as [e He]. cbn [handle]. unfold initialize_ai.
      now rewrite He. }
    rewrite Hnone. now apply IH.
  - induction evs as [|ev evs IH]; intros self; [now exists self |].
    cbn [handle_all fold_left]. fold (handle_all evs (handle ev (Some self))).
    assert (Hsome : exists self1, handle ev (Some self) = Some self1).
    { destruct ev as [env | w message history | text | | current_time].
      - cbn [handle]. unfold initialize_ai.
        destruct (CitizenAI_new env); eexists; reflexivity.
      - destruct (handle_grows (SendMessage w message history) self I)
          as (added & -> & _). eexists. reflexivity.
      - destruct (handle_grows (ClickAnalyze text) self I) as (added & -> & _).
        eexists. reflexivity.
      - destruct (handle_grows ClickLoadHistory self I) as (added & -> & _).
        eexists. reflexivity.
      - destruct (handle_grows (ClickRefresh current_time) self I)
          as (added & -> & _). eexists. reflexivity. }
    destruct Hsome as [self1 ->]. apply IH.
Qed.

(** X12. Between initializations the log only grows. Through any events
    without a click on Initialize the instance keeps its key, and its log
    is the log before followed by at most one new record per event. *)
Theorem session_append_only (evs : list Event) (self : Instance) :
  Forall (fun ev => match ev with ClickInitialize _ => False | _ => True end)
         evs ->
  exists added,
    handle_all evs (Some self)
    = Some {| api_key := api_key self;
              conversation_history := conversation_history self ++ added |}
    /\ List.length added <= List.length evs.
Proof.
  revert self; induction evs as [|ev evs IH]; intros self H.
  - exists []. split; [| simpl; lia]. cbn. destruct self; cbn.
    now rewrite app_nil_r.
  - inversion H as [|? ? Hev Hevs]; subst.
    cbn [handle_all fold_left]. fold (handle_all evs (handle ev (Some self))).
    destruct (handle_grows ev self Hev) as (added1 & -> & Hlen1).
    destruct (IH {| api_key := api_key self;
                    conversation_history := conversation_history self ++ added1 |}
                 Hevs) as (added & -> & Hlen).
    cbn [api_key conversation_history]. exists (added1 ++ added).
    rewrite <- app_assoc. split; [reflexivity |].
    rewrite length_app. simpl. lia.
Qed.

(** X13. Every service of the dropdown has its text. The dropdown offers
    the keys of the dict, in the dict's order and without repetition; for
    each of them [get_service_info] returns the text stored under it, never
    the fallback; for any other argument (the match is exact) it returns
    "Service information not available.". *)
Theorem get_service_info_choices (service_type : str) :
  map fst services_info = service_choices
  /\ NoDup service_choices
  /\ (In service_type service_choices ->
      exists info,
        In (service_type, info) services_info
        /\ get_service_info service_type = info
        /\ info <> service_not_available)
  /\ (~ In service_type service_choices ->
      get_service_info service_type = service_not_available).
Proof.
  assert (Hkeys : map fst services_info = service_choices) by reflexivity.
  assert (Hnd : NoDup service_choices).
  { assert (H : nodup (list_eq_dec N.eq_dec) service_choices = service_choices)
      by (vm_compute; reflexivity).
    rewrite <- H. apply NoDup_nodup. }
  split; [exact Hkeys |]. split; [exact Hnd |]. split.
  - intros Hin. rewrite <- Hkeys in Hin. apply in_map_iff in Hin.
    destruct Hin as ([k info] & Hk & Hin). cbn [fst] in Hk. subst k.
    exists info. split; [exact Hin |]. split.
    + apply dict_get_in; [now rewrite Hkeys | exact Hin].
    + assert (Hall : forallb (fun item =>
                       negb (str_eqb (snd item) service_not_available))
                     services_info = true) by (vm_compute; reflexivity).
      rewrite forallb_forall in Hall. specialize (Hall _ Hin). cbn [snd] in Hall.
      apply str_eqb_false. now destruct (str_eqb info service_not_available).
  - intros Hno. apply dict_get_missing. now rewrite Hkeys.
Qed.

(** X14. The dashboard counts the log. With an instance, the dashboard
    shows the number of records of the whole log (not of the last ten) and
    leaves [ai] as it is; a chat turn that yields a text raises the count by
    one, and a blank message or a failed inference leaves it. *)
Theorem get_dashboard_stats_counts
        (current_time : str) (w : World) (message : str)
        (history : ChatHistory) (self : Instance) :
  let total := len (conversation_history self) in
  let after := snd (chat_with_ai w message history (Some self)) in
  get_dashboard_stats current_time (Some self)
  = (Return (stats_text total current_time, analytics_text total), Some self)
  /\ (strip message <> [] ->
      forall response_text,
        inference w message = Return response_text ->
        fst (get_dashboard_stats current_time after)
        = Return (stats_text (total + 1) current_time,
                  analytics_text (total + 1)))
  /\ (strip message = [] \/ (exists e, inference w message = Raise e) ->
      fst (get_dashboard_stats current_time after)
      = Return (stats_text total current_time, analytics_text total)).
Proof.
  intros total after. split; [reflexivity |]. split.
  - intros Hne response_text E. unfold after.
    rewrite (chat_with_ai_return _ _ _ _ _ Hne E). cbn [snd].
    unfold get_dashboard_stats. cbn [conversation_history].
    replace (len (conversation_history self ++ _)) with (total + 1)%Z;
      [reflexivity |].
    unfold total, len. rewrite length_app. simpl. lia.
  - intros Hcase. unfold after.
    destruct (strip message) as [|c s] eqn:Es.
    + now rewrite (chat_with_ai_blank _ _ _ _ Es).
    + assert (Hne : strip message <> []) by (rewrite Es; discriminate).
      destruct Hcase as [H | [e E]]; [discriminate H |].
      now rewrite (chat_with_ai_raise _ _ _ _ _ Hne E).
Qed.

Lemma render_recent_snoc (log : list Conversation) (r : Conversation) :
  render_recent 10 (log ++ [r])
  = (history_header ++ numbered_blocks 1 (last_records 9 log))
    ++ history_block (Z.min 10 (len (log ++ [r]))) r.
Proof.
  unfold render_recent. destruct (log ++ [r]) as [|c l] eqn:E.
  - destruct log; discriminate E.
  - rewrite <- E. rewrite (last_records_snoc 9 log r), numbered_blocks_snoc.
    rewrite <- app_assoc. do 4 f_equal.
    unfold last_records, len. rewrite length_skipn, length_app.
    cbn [List.length]. lia.
Qed.

Lemma filter_length_mono (A : Type) (p q : A -> bool) (l : list A) :
  (forall x, p x = true -> q x = true) ->
  List.length (filter p l) <= List.length (filter q l).
Proof.
  intros H. induction l as [|x l IH]; [reflexivity |].
  cbn [filter]. destruct (p x) eqn:Ep.
  - rewrite (H x Ep). simpl. lia.
  - destruct (q x); simpl; lia.
Qed.

Lemma count_present_mono (words : list str) (t1 t2 : str) :
  (forall w, occurs_in w t1 -> occurs_in w t2) ->
  (count_present words t1 <= count_present words t2)%Z.
Proof.
  intros H. rewrite !count_present_len. unfold len.
  apply inj_le. apply filter_length_mono.
  intros w Hw. apply contains_iff. apply H. now apply contains_iff.
Qed.

Lemma occurs_in_middle (w before text after : str) :
  occurs_in w text -> occurs_in w (before ++ text ++ after).
Proof.
  intros (b & a & ->). exists (before ++ b), (a ++ after).
  now rewrite <- !app_assoc.
Qed.

(** X15. The token check of [main] is the one of [__init__]. [main] ends
    with [sys.exit(1)] exactly when the token is unset or empty, which is
    exactly when [__init__] raises its [ValueError]; otherwise, when the
    interface builds, it launches on 0.0.0.0:7860 with sharing on. *)
Theorem main_token_check (env : Env) (interface : py unit) :
  (snd (main env interface) = Return (Exit 1)
   <-> hf_api_token env = None \/ hf_api_token env = Some [])
  /\ (snd (main env interface) = Return (Exit 1)
      <-> init (hf_api_token env)
          = Raise (ValueError
                     (cps "HF_API_TOKEN not found in environment variables")))
  /\ (snd (main env interface) <> Return (Exit 1) ->
      (exists self, init (hf_api_token env) = Return self)
      /\ (interface = Return tt ->
          snd (main env interface)
          = Return (Launch (cps "0.0.0.0") 7860 false true))).
Proof.
  unfold main, init.
  destruct (hf_api_token env) as [[|c key] |]; cbn [env_truthy truthy negb snd].
  - split; [tauto |]. split; [tauto |]. intros H. now contradiction H.
  - split; [| split].
    + split; [destruct interface; discriminate | intros [H | H]; discriminate H].
    + split; [destruct interface; discriminate | discriminate].
    + intros _. split; [eexists; reflexivity |]. intros ->. reflexivity.
  - split; [tauto |]. split; [tauto |]. intros H. now contradiction H.
Qed.

(** X16. An exchange shows at once. After a [generate_response] whose
    inference step yields a text, the history view ends in the block of
    this input and this text, numbered [min(10, N+1)] for a log that had N
    records; after one whose inference step raises, the view is as
    before. *)
Theorem generate_response_then_history
        (w : World) (user_input : str) (self : Instance) :
  (forall response_text,
      inference w user_input = Return response_text ->
      exists before,
        fst (get_conversation_history (snd (generate_response w user_input self)))
        = Return (before
                  ++ history_block
                       (Z.min 10 (len (conversation_history self) + 1))
                       {| timestamp := now w;
                          user_input := user_input;
                          ai_response := response_text |}))
  /\ (forall e,
        inference w user_input = Raise e ->
        fst (get_conversation_history (snd (generate_response w user_input self)))
        = fst (get_conversation_history self)).
Proof.
  split.
  - intros response_text E. rewrite (generate_response_return _ _ _ _ E).
    cbn [snd]. rewrite get_conversation_history_render.
    cbn [fst conversation_history]. rewrite render_recent_snoc.
    eexists. do 3 f_equal. unfold len. rewrite length_app. simpl. lia.
  - intros e E. now rewrite (generate_response_raise _ _ _ _ E).
Qed.

(** X17. More ASCII text never lowers a count. For an ASCII text, each
    count of a part of it is at most the count of the whole. *)
Theorem analyze_counts_monotone (before text after : str) :
  is_ascii (before ++ text ++ after) = true ->
  exists a b,
    analyze text = Return a
    /\ analyze (before ++ text ++ after) = Return b
    /\ (positive_count a <= positive_count b)%Z
    /\ (negative_count a <= negative_count b)%Z.
Proof.
  intros H. assert (Ht : is_ascii text = true).
  { unfold is_ascii in *. rewrite !forallb_app in H.
    apply andb_true_iff in H as [_ H]. now apply andb_true_iff in H as [H _]. }
  do 2 eexists. split; [apply analyze_returns |].
  split; [apply analyze_returns |]. cbn [positive_count negative_count].
  unfold lower. rewrite (lower_from_ascii _ _ _ H), (lower_from_ascii _ _ _ Ht).
  rewrite !map_app.
  split; apply count_present_mono; intros w; apply occurs_in_middle.
Qed.

End CitizenAI.

(** ** The claims on concrete inputs *)

(** "good service" is not blank and is labelled Positive. *)
Lemma analyze_sentiment_label_witness :
  strip (cps "good service") <> []
  /\ exists a,
      analyze caseless_lower (cps "good service") = Return a
      /\ analyze_sentiment caseless_lower format_2f_decimal (cps "good service")
                           (sample_instance 0)
         = (Return (result_text format_2f_decimal a), sample_instance 0)
      /\ positive_count a = 1%Z
      /\ negative_count a = 0%Z
      /\ sentiment a = cps "Positive".
Proof.
  assert (Hne : strip (cps "good service") <> []) by (vm_compute; discriminate).
  split; [exact Hne |].
  destruct (analyze_sentiment_label caseless_lower format_2f_decimal
              (cps "good service") (sample_instance 0) Hne)
    as (a & Ha & Hrun & Hpos & _).
  exists a. split; [exact Ha |]. split; [exact Hrun |].
  rewrite analyze_returns in Ha. injection Ha as <-.
  cbn [positive_count negative_count sentiment] in *.
  split; [vm_compute; reflexivity |]. split; [vm_compute; reflexivity |].
  vm_compute; reflexivity.
Defined.

(** "good service": one match over two words, confidence 1/3. *)
Lemma analyze_sentiment_confidence_witness :
  strip (cps "good service") <> []
  /\ exists a,
      analyze caseless_lower (cps "good service") = Return a
      /\ truediv 1 (2 + 1) = Return (confidence a)
      /\ (confidence a == 1 # 3)%Q.
Proof.
  assert (Hne : strip (cps "good service") <> []) by (vm_compute; discriminate).
  split; [exact Hne |].
  destruct (analyze_sentiment_confidence caseless_lower format_2f_decimal
              (cps "good service") (sample_instance 0) Hne)
    as (a & Ha & _ & Hdiv & Hq & _).
  exists a. split; [exact Ha |].
  rewrite analyze_returns in Ha. injection Ha as <-.
  cbn [positive_count negative_count confidence total_words] in *.
  split; [exact Hdiv | exact Hq].
Defined.

(** C4, the counterexample: "fast,helpful,efficient" is one token holding
    three positive entries, so the confidence is 3/2. *)
Lemma analyze_confidence_above_one :
  exists a,
    analyze caseless_lower (cps "fast,helpful,efficient") = Return a
    /\ positive_count a = 3%Z
    /\ negative_count a = 0%Z
    /\ total_words a = 1%Z
    /\ (confidence a == 3 # 2)%Q
    /\ (1 < confidence a)%Q.
Proof.
  eexists. split; [apply analyze_returns |].
  cbn [positive_count negative_count confidence total_words].
  repeat split; vm_compute; reflexivity.
Qed.

(** The confidence of "fast,helpful,efficient" within the code's range. *)
Lemma analyze_confidence_range_witness :
  exists a,
    analyze caseless_lower (cps "fast,helpful,efficient") = Return a
    /\ (0 <= confidence a)%Q
    /\ (confidence a <= 11)%Q.
Proof.
  destruct (analyze_confidence_range caseless_lower (cps "fast,helpful,efficient"))
    as (a & Ha & H0 & _ & H11 & _).
  exists a. split; [exact Ha |]. split; [exact H0 |].
  apply H11. vm_compute. discriminate.
Defined.

(** A blank text gets the notice, "ok" an analysis. *)
Lemma analyze_sentiment_empty_input_witness :
  analyze_sentiment caseless_lower format_2f_decimal (cps "  ") (sample_instance 0)
  = (Return empty_input_notice, sample_instance 0)
  /\ exists a,
      analyze caseless_lower (cps "ok") = Return a
      /\ analyze_sentiment caseless_lower format_2f_decimal (cps "ok")
                           (sample_instance 0)
         = (Return (result_text format_2f_decimal a), sample_instance 0).
Proof.
  split.
  - apply (proj1 (analyze_sentiment_empty_input caseless_lower format_2f_decimal
                    (cps "  ") (sample_instance 0))).
    reflexivity.
  - apply (proj1 (proj2 (analyze_sentiment_empty_input caseless_lower
                           format_2f_decimal (cps "ok") (sample_instance 0)))).
    vm_compute. discriminate.
Defined.

(** C6, the counterexample: on a log of 5 records the code renders all 5;
    the last 3, which [render_recent(limit=3)] is to return, are another
    text. *)
Lemma get_conversation_history_ignores_limit :
  get_conversation_history (sample_instance 5)
  = (Return (render_recent 10 (sample_log 5)), sample_instance 5)
  /\ last_records 10 (sample_log 5) = sample_log 5
  /\ List.length (last_records 3 (sample_log 5)) = 3
  /\ render_recent 10 (sample_log 5) <> render_recent 3 (sample_log 5).
Proof.
  split; [apply get_conversation_history_render |].
  split; [reflexivity |]. split; [reflexivity |].
  apply str_eqb_false. vm_compute. reflexivity.
Qed.

(** A log of 12 records: the window is the last 10, two are skipped. *)
Lemma get_conversation_history_window_witness :
  get_conversation_history (sample_instance 12)
  = (Return (render_recent 10 (sample_log 12)), sample_instance 12)
  /\ List.length (last_records 10 (sample_log 12)) = 10
  /\ last_records 10 (sample_log 12) = skipn 2 (sample_log 12)
  /\ last_records 10 (sample_log 4) = sample_log 4.
Proof.
  pose proof (get_conversation_history_window (sample_instance 12)) as H.
  cbv zeta in H. destruct H as (Hrun & _ & Hlong & _).
  split; [exact Hrun |].
  split; [apply Hlong; vm_compute; lia |].
  split; [reflexivity |].
  apply (proj2 (proj2 (proj2 (get_conversation_history_window (sample_instance 4))))).
  vm_compute. lia.
Defined.

(** The instance [__init__] builds has an empty log. *)
Lemma get_conversation_history_empty_witness :
  init (Some (cps "hf_token")) = Return (sample_instance 0)
  /\ get_conversation_history (sample_instance 0)
     = (Return no_history_message, sample_instance 0).
Proof.
  split; [reflexivity |].
  apply (get_conversation_history_empty (sample_instance 0)). reflexivity.
Defined.

(** An answering endpoint, a failing one, and one that sends no choice. *)
Lemma generate_response_outcome_witness :
  generate_response (world_replying (cps "hello")) (cps "hi") (sample_instance 0)
  = (Return (cps "hello"),
     {| api_key := cps "hf_token";
        conversation_history :=
          [ {| timestamp := sample_clock;
               user_input := cps "hi";
               ai_response := cps "hello" |} ] |})
  /\ generate_response world_failing (cps "hi") (sample_instance 3)
     = (Return (cps "Error: 503 Service Unavailable"), sample_instance 3)
  /\ generate_response world_no_choice (cps "hi") (sample_instance 3)
     = (Return (cps "Error: list index out of range"), sample_instance 3).
Proof.
  split; [| split].
  - exact (proj2 (proj2 (proj2
             (generate_response_outcome (world_replying (cps "hello")) (cps "hi")
                                        (sample_instance 0))))
             {| choices := [ {| message := {| content := cps "hello" |} |} ] |}
             {| message := {| content := cps "hello" |} |} []
             eq_refl eq_refl).
  - exact (proj1 (proj2
             (generate_response_outcome world_failing (cps "hi")
                                        (sample_instance 3)))
             (OtherError (cps "HfHubHTTPError") (cps "503 Service Unavailable"))
             eq_refl).
  - exact (proj1 (proj2 (proj2
             (generate_response_outcome world_no_choice (cps "hi")
                                        (sample_instance 3))))
             {| choices := [] |} eq_refl eq_refl).
Defined.

(** C10, the counterexample: the call to the endpoint returns, with a
    completion that holds no choice; the answer is the error text and no
    record is appended. *)
Lemma generate_response_call_without_choice :
  create world_no_choice (chat_request (cps "hi")) = Return {| choices := [] |}
  /\ generate_response world_no_choice (cps "hi") (sample_instance 3)
     = (Return (cps "Error: list index out of range"), sample_instance 3)
  /\ conversation_history
       (snd (generate_response world_no_choice (cps "hi") (sample_instance 3)))
     = conversation_history (sample_instance 3).
Proof.
  assert (E : inference world_no_choice (cps "hi")
              = Raise (IndexError (cps "list index out of range")))
    by reflexivity.
  split; [reflexivity |].
  rewrite (generate_response_raise _ _ _ _ E).
  split; reflexivity.
Qed.

(** ** The further properties on concrete inputs *)

(** "good service" holds "good" and no negative entry. *)
Lemma analyze_one_sided_witness :
  exists a,
    analyze caseless_lower (cps "good service") = Return a
    /\ sentiment a = cps "Positive"
    /\ (1 <= positive_count a)%Z
    /\ negative_count a = 0%Z.
Proof.
  destruct (analyze_one_sided caseless_lower (cps "good service"))
    as (a & Ha & Hpos & _).
  exists a. split; [exact Ha |]. apply Hpos.
  - exists (cps "good"). split; [now left |].
    apply contains_iff. vm_compute. reflexivity.
  - apply absent_all. vm_compute. reflexivity.
Defined.

(** "GOOD Service" and "good service". *)
Lemma analyze_sentiment_ignores_case_witness :
  analyze caseless_lower (cps "GOOD Service")
  = analyze caseless_lower (cps "good service")
  /\ analyze_sentiment caseless_lower format_2f_decimal (cps "GOOD Service")
                       (sample_instance 0)
     = analyze_sentiment caseless_lower format_2f_decimal (cps "good service")
                         (sample_instance 0).
Proof.
  exact (analyze_sentiment_ignores_case caseless_lower format_2f_decimal
           (cps "GOOD Service") (cps "good service") (sample_instance 0)
           eq_refl eq_refl eq_refl).
Defined.

(** "excellent" on its own. *)
Lemma lexicon_entry_alone_witness :
  exists a,
    analyze caseless_lower (cps "excellent") = Return a
    /\ positive_count a = 1%Z /\ negative_count a = 0%Z
    /\ sentiment a = cps "Positive".
Proof.
  apply (proj1 (lexicon_entry_alone caseless_lower (cps "excellent"))).
  right. right. now left.
Defined.

(** Twelve records: the view is that of the last ten. *)
Lemma get_conversation_history_last_ten_witness :
  fst (get_conversation_history (sample_instance 12))
  = fst (get_conversation_history
           {| api_key := cps "hf_token";
              conversation_history := skipn 2 (sample_log 12) |}).
Proof.
  exact (proj1 (get_conversation_history_last_ten
                  (cps "hf_token") (firstn 2 (sample_log 12))
                  (skipn 2 (sample_log 12)) eq_refl)).
Defined.

(** Three records: the third is shown last, as number 3. *)
Lemma get_conversation_history_latest_last_witness :
  exists before,
    fst (get_conversation_history (sample_instance 3))
    = Return (before ++ history_block 3 (sample_conversation 3)).
Proof.
  exact (get_conversation_history_latest_last
           (sample_instance 3) (sample_log 2) (sample_conversation 3) eq_refl).
Defined.

(** No token: the instance in place stays. A token: a new instance. *)
Lemma initialize_ai_outcome_witness :
  initialize_ai env_without_token (Some (sample_instance 3))
  = (Return ([0x274C%N] ++ cps " Failed to initialize AI: "
             ++ cps "HF_API_TOKEN not found in environment variables"),
     Some (sample_instance 3))
  /\ initialize_ai sample_env None
     = (Return initialized_message, Some (sample_instance 0)).
Proof.
  split.
  - apply (proj1 (proj2 (initialize_ai_outcome env_without_token
                           (Some (sample_instance 3))))).
    now left.
  - apply (proj1 (proj2 (proj2 (proj2 (initialize_ai_outcome sample_env None)))
                    (sample_instance 0) eq_refl)).
Defined.

(** Three records, then Initialize: the history view is empty again. *)
Lemma initialize_ai_resets_history_witness :
  get_history (snd (initialize_ai sample_env (Some (sample_instance 3))))
  = (Return no_history_message, Some (sample_instance 0)).
Proof.
  exact (proj1 (initialize_ai_resets_history
                  sample_env (Some (sample_instance 3)) (sample_instance 0)
                  eq_refl)).
Defined.

(** A blank message, a failing endpoint and an answering one. *)
Lemma chat_with_ai_outcome_witness :
  chat_with_ai (world_replying (cps "hello")) (cps "  ") [] (Some (sample_instance 0))
  = (Return [(cps "  ", cps "Please enter a message.")], Some (sample_instance 0))
  /\ chat_with_ai world_failing (cps "hi") [] (Some (sample_instance 0))
     = (Return [(cps "hi", cps "Error: 503 Service Unavailable")],
        Some (sample_instance 0))
  /\ chat_with_ai (world_replying (cps "hello")) (cps "hi") [] (Some (sample_instance 0))
     = (Return [(cps "hi", cps "hello")],
        Some {| api_key := cps "hf_token";
                conversation_history :=
                  [ {| timestamp := sample_clock;
                       user_input := cps "hi";
                       ai_response := cps "hello" |} ] |}).
Proof.
  split; [| split].
  - apply (proj1 (proj2 (chat_with_ai_outcome (world_replying (cps "hello"))
                           (cps "  ") [] (sample_instance 0)))).
    reflexivity.
  - apply (proj1 (proj2 (proj2 (chat_with_ai_outcome world_failing
                                  (cps "hi") [] (sample_instance 0))))
             ltac:(vm_compute; discriminate)
             (OtherError (cps "HfHubHTTPError") (cps "503 Service Unavailable"))).
    reflexivity.
  - apply (proj2 (proj2 (proj2 (chat_with_ai_outcome (world_replying (cps "hello"))
                                  (cps "hi") [] (sample_instance 0))))
             ltac:(vm_compute; discriminate) (cps "hello")).
    reflexivity.
Defined.

(** Events around a click on Initialize that fails for want of a token. *)
Lemma session_initialization_witness :
  handle_all caseless_lower format_2f_decimal
    [ClickAnalyze (cps "good");
     SendMessage (world_replying (cps "hello")) (cps "hi") [];
     ClickInitialize env_without_token;
     ClickLoadHistory]
    None
  = None.
Proof.
  apply (proj1 (session_initialization caseless_lower format_2f_decimal _)).
  repeat constructor.
  exists (ValueError (cps "HF_API_TOKEN not found in environment variables")).
  reflexivity.
Defined.

(** Three events on a new instance: one answered message, one record. *)
Lemma session_append_only_witness :
  exists added,
    handle_all caseless_lower format_2f_decimal
      [SendMessage (world_replying (cps "hello")) (cps "hi") [];
       ClickLoadHistory;
       SendMessage world_failing (cps "hi") [(cps "hi", cps "hello")]]
      (Some (sample_instance 0))
    = Some {| api_key := cps "hf_token"; conversation_history := [] ++ added |}
    /\ List.length added <= 3.
Proof.
  exact (session_append_only caseless_lower format_2f_decimal
           [SendMessage (world_replying (cps "hello")) (cps "hi") [];
            ClickLoadHistory;
            SendMessage world_failing (cps "hi") [(cps "hi", cps "hello")]]
           (sample_instance 0)
           ltac:(repeat constructor)).
Defined.

(** "Voter ID" is a choice; "voter id" is not. *)
Lemma get_service_info_choices_witness :
  (exists info,
      In (cps "Voter ID", info) services_info
      /\ get_service_info (cps "Voter ID") = info
      /\ info <> service_not_available)
  /\ get_service_info (cps "voter id") = service_not_available.
Proof.
  split.
  - apply (proj1 (proj2 (proj2 (get_service_info_choices (cps "Voter ID"))))).
    do 4 right. now left.
  - apply (proj2 (proj2 (proj2 (get_service_info_choices (cps "voter id"))))).
    intros H. repeat (destruct H as [H | H]; [discriminate H |]). exact H.
Defined.

(** Three records and an answered message: the dashboard counts 4. *)
Lemma get_dashboard_stats_counts_witness :
  fst (get_dashboard_stats sample_clock
         (snd (chat_with_ai (world_replying (cps "hello")) (cps "hi") []
                            (Some (sample_instance 3)))))
  = Return (stats_text 4 sample_clock, analytics_text 4).
Proof.
  apply (proj1 (proj2 (get_dashboard_stats_counts sample_clock
                         (world_replying (cps "hello")) (cps "hi") []
                         (sample_instance 3)))
           ltac:(vm_compute; discriminate) (cps "hello")).
  reflexivity.
Defined.

(** No token: exit 1. A token and an interface: launch. *)
Lemma main_token_check_witness :
  snd (main env_without_token (Return tt)) = Return (Exit 1)
  /\ snd (main sample_env (Return tt))
     = Return (Launch (cps "0.0.0.0") 7860 false true).
Proof.
  split.
  - apply (proj1 (main_token_check env_without_token (Return tt))). now left.
  - apply (proj2 (proj2 (main_token_check sample_env (Return tt)))).
    + discriminate.
    + reflexivity.
Defined.

(** An answered message on a log of three records shows as number 4. *)
Lemma generate_response_then_history_witness :
  exists before,
    fst (get_conversation_history
           (snd (generate_response (world_replying (cps "hello")) (cps "hi")
                                   (sample_instance 3))))
    = Return (before
              ++ history_block 4 {| timestamp := sample_clock;
                                    user_input := cps "hi";
                                    ai_response := cps "hello" |}).
Proof.
  exact (proj1 (generate_response_then_history
                  (world_replying (cps "hello")) (cps "hi") (sample_instance 3))
           (cps "hello") eq_refl).
Defined.

(** "good" within "not good at all". *)
Lemma analyze_counts_monotone_witness :
  exists a b,
    analyze caseless_lower (cps "good") = Return a
    /\ analyze caseless_lower (cps "not " ++ cps "good" ++ cps " at all") = Return b
    /\ (positive_count a <= positive_count b)%Z
    /\ (negative_count a <= negative_count b)%Z.
Proof.
  exact (analyze_counts_monotone caseless_lower
           (cps "not ") (cps "good") (cps " at all") eq_refl).
Defined.
